(** * Catalog and retrieval engine of scraper_reclameaqui

  A shallow embedding of [src/src/data_reader.py] ([DataReader]),
  the storage client of [src/src/runner.py] ([MinIOClient]) and the
  aggregation helpers of [src/src/data_helpers.py] ([DataAnalyzer]),
  with the properties the specification states about them.

  Python [str] values are modelled as [string] (a sequence of bytes, the
  UTF-8 encoding of the text).  Comparing two UTF-8 encodings byte by byte
  orders them as Python orders the texts code point by code point, so
  [String.compare] stands for Python's [<] on [str]. *)

From Stdlib Require Import ZArith Lia Bool Ascii String List Permutation Sorted.
From Stdlib Require OrderedTypeEx.
From stdpp Require Import base option list strings gmap sorting.
Import ListNotations.

#[local] Set Warnings "-register-all,-abstract-large-number".

Local Open Scope string_scope.
Local Open Scope list_scope.

(** ** Python string primitives *)

Module PyStr.

Definition slash : ascii := "/"%char.

(** [s.split(sep)] for a one-character separator: never empty, one more
    piece than there are separators. *)
Fixpoint split (sep : ascii) (s : string) : list string :=
  match s with
  | EmptyString => [EmptyString]
  | String c rest =>
      if Ascii.eqb c sep then EmptyString :: split sep rest
      else match split sep rest with
           | piece :: pieces => String c piece :: pieces
           | [] => [String c EmptyString]
           end
  end.

(** [sep.join(pieces)] *)
Fixpoint join (sep : string) (pieces : list string) : string :=
  match pieces with
  | [] => EmptyString
  | [p] => p
  | p :: rest => p +:+ sep +:+ join sep rest
  end.

(** [c in s] for a character *)
Fixpoint has_char (c : ascii) (s : string) : bool :=
  match s with
  | EmptyString => false
  | String d rest => Ascii.eqb d c || has_char c rest
  end.

(** [s.startswith(p)] *)
Fixpoint startswith (p s : string) : bool :=
  match p, s with
  | EmptyString, _ => true
  | String _ _, EmptyString => false
  | String a p', String b s' => Ascii.eqb a b && startswith p' s'
  end.

(** [needle in hay] on two strings: substring search. *)
Fixpoint contains (needle hay : string) : bool :=
  startswith needle hay ||
  match hay with
  | EmptyString => false
  | String _ hay' => contains needle hay'
  end.

(** [a < b], [a > b] and [a <= b] on strings. *)
Definition lt (a b : string) : bool := String.ltb a b.
Definition gt (a b : string) : bool := String.ltb b a.
Definition le (a b : string) : bool := String.leb a b.

(** [s[a:b]] on lists, for [0 <= a <= b]. *)
Definition slice {A} (a b : nat) (l : list A) : list A :=
  firstn (b - a) (skipn a l).

(** [s.replace(old, new)] for a non-empty [old]: occurrences are taken from
    the left and do not overlap.  [skip] counts the characters of an
    occurrence still to be passed over. *)
Fixpoint replace_from (old new : string) (skip : nat) (s : string) : string :=
  match s with
  | EmptyString => EmptyString
  | String c rest =>
      match skip with
      | S k => replace_from old new k rest
      | O =>
          if startswith old s
          then new +:+ replace_from old new (String.length old - 1) rest
          else String c (replace_from old new 0 rest)
      end
  end.

Definition replace (old new s : string) : string := replace_from old new 0 s.

End PyStr.

(** ** The catalog entry ([DataFile]) *)

(** The dataclass [DataFile].  Its last field, [size_mb], is never given a
    value and is 0.0 in every entry; it is left out. *)
Record DataFile := mkDataFile {
  path : string;
  layer : string;
  category : string;
  filename : string;
  date : string
}.

(** ** Path codec *)

(** What a call of [datetime.now()] supplies to [strftime]. *)
Record datetime := mkDatetime {
  year : nat; month : nat; day : nat;
  hour : nat; minute : nat; second : nat
}.

Module Codec.

Definition digit (n : nat) : ascii := ascii_of_nat (48 + n mod 10).

Definition two_digits (n : nat) : string :=
  String (digit (n / 10)) (String (digit n) EmptyString).

(** [%Y]: the year with century, four digits for the years 1 to 9999
    that [datetime] can hold. *)
Definition four_digits (n : nat) : string :=
  String (digit (n / 1000)) (String (digit (n / 100))
    (String (digit (n / 10)) (String (digit n) EmptyString))).

(** [now.strftime('%Y/%m/%d')] *)
Definition strftime_Ymd (now : datetime) : string :=
  four_digits (year now) +:+ "/" +:+ two_digits (month now) +:+ "/" +:+
  two_digits (day now).

(** [now.strftime("%Y%m%d_%H%M%S")] *)
Definition strftime_stamp (now : datetime) : string :=
  four_digits (year now) +:+ two_digits (month now) +:+ two_digits (day now)
  +:+ "_" +:+ two_digits (hour now) +:+ two_digits (minute now) +:+
  two_digits (second now).

(** [MinIOClient.upload_json] reads the clock twice: [stamp] names the
    file when no name is given, [now] dates the key.  The name defaults to
    [f"{category}_{timestamp}.json"]. *)
Definition upload_filename (category : string) (stamp : datetime)
    (filename : option string) : string :=
  match filename with
  | Some f => f
  | None => category +:+ "_" +:+ strftime_stamp stamp +:+ ".json"
  end.

(** The key [f"{category}/{now:%Y/%m/%d}/{filename}"]. *)
Definition object_path (category : string) (stamp now : datetime)
    (filename : option string) : string :=
  category +:+ "/" +:+ strftime_Ymd now +:+ "/" +:+
  upload_filename category stamp filename.

(** The body of the [for obj_path in objects] loop of
    [listar_arquivos_disponiveis]: the entry made from one key, or
    nothing when the key has fewer than four pieces. *)
Definition decode (current_layer obj_path : string) : option DataFile :=
  let parts := PyStr.split PyStr.slash obj_path in
  if Nat.leb 4 (length parts) then
    Some {| path := obj_path;
            layer := current_layer;
            category := List.nth 0 parts EmptyString;
            filename := List.last parts EmptyString;
            date := PyStr.join "/" (PyStr.slice 1 4 parts) |}
  else None.

End Codec.

(** ** Exceptions and fallible computations *)

Inductive exn :=
| S3Error | KeyError | TypeError | AttributeError | ValueError
| IndexError | JSONDecodeError | ConnectionError.

Inductive result (A : Type) :=
| Ok (a : A)
| Raise (e : exn).
Arguments Ok {A} a.
Arguments Raise {A} e.

(** Sequencing: the first exception ends the computation. *)
Definition rbind {A B} (r : result A) (k : A -> result B) : result B :=
  match r with
  | Ok a => k a
  | Raise e => Raise e
  end.

Notation "'let*' x ':=' r 'in' k" := (rbind r (fun x => k))
  (at level 10, x name, r at level 100, k at level 200).

(** [if s:] on an optional string argument: [None] and [""] are false. *)
Definition truthy_str (s : option string) : bool :=
  match s with
  | Some (String _ _) => true
  | _ => false
  end.

(** ** The storage client ([MinIOClient], runner.py) *)

(** The [Minio] connection held in [self.client]: what listing a bucket under
    a prefix and reading an object answer, or the exception they raise. *)
Record Minio := mkMinio {
  client_list_objects : string -> string -> result (list string);
  client_get_object : string -> string -> result string
}.

Module MinIOClient.

(** [self.buckets[layer]] *)
Definition buckets (layer : string) : result string :=
  if String.eqb layer "landing" then Ok "reclameaqui-landing"
  else if String.eqb layer "raw" then Ok "reclameaqui-raw"
  else if String.eqb layer "trusted" then Ok "reclameaqui-trusted"
  else Raise KeyError.

(** [list_objects]: an [S3Error] is answered by the empty list, any other
    exception leaves the function. *)
Definition list_objects (client : Minio) (layer : string)
    (category : option string) : result (list string) :=
  let body :=
    (let* bucket_name := buckets layer in
     let prefix := match category with
                   | Some c => if truthy_str category then c +:+ "/" else ""
                   | None => ""
                   end in
     client_list_objects client bucket_name prefix) in
  match body with
  | Raise S3Error => Ok []
  | r => r
  end.

End MinIOClient.

(** ** [list.sort(key=..., reverse=...)] *)

Module PySort.
Section Sort.
Context {A : Type} (key : A -> string).

(** Put [x] in front of the first element whose key is not below its own. *)
Fixpoint insert (x : A) (l : list A) : list A :=
  match l with
  | [] => [x]
  | y :: l' => if PyStr.le (key x) (key y) then x :: y :: l'
               else y :: insert x l'
  end.

(** A stable ascending sort.  Stability fixes the result of sorting
    ([sort_asc_unique] below), so this stands for the merge sort that
    [list.sort] runs. *)
Fixpoint sort_asc (l : list A) : list A :=
  match l with
  | [] => []
  | x :: l' => insert x (sort_asc l')
  end.

(** With [reverse=True] the list is reversed, sorted ascending and reversed
    again. *)
Definition list_sort (reverse : bool) (l : list A) : list A :=
  if reverse then rev (sort_asc (rev l)) else sort_asc l.

End Sort.
End PySort.

(** ** Listing and filtering ([DataReader], data_reader.py) *)

Module Listing.

Definition all_layers : list string := ["landing"; "raw"; "trusted"].

(** One turn of [for obj_path in objects]. *)
Definition visit_object (current_layer : string) (arquivos : list DataFile)
    (obj_path : string) : list DataFile :=
  match Codec.decode current_layer obj_path with
  | Some arquivo => arquivos ++ [arquivo]
  | None => arquivos
  end.

(** One turn of [for current_layer in layers]: the [try] block, with
    [except Exception] leaving [arquivos] as it is. *)
Definition visit_layer (client : Minio) (category : option string)
    (arquivos : list DataFile) (current_layer : string) : list DataFile :=
  match MinIOClient.list_objects client current_layer category with
  | Ok objects => fold_left (visit_object current_layer) objects arquivos
  | Raise _ => arquivos
  end.

(** The list before the final sort. *)
Definition gather (client : Minio) (layer category : option string)
    : list DataFile :=
  let layers := match layer with
                | Some l => if truthy_str layer then [l] else all_layers
                | None => all_layers
                end in
  fold_left (visit_layer client category) layers [].

Definition listar_arquivos_disponiveis (client : Minio)
    (layer category : option string) : list DataFile :=
  PySort.list_sort date true (gather client layer category).

(** The keyword arguments of [buscar_arquivos_por_filtro]: [None] for a key
    that is not in [filtros]. *)
Record Filtros := mkFiltros {
  f_layer : option string;
  f_category : option string;
  f_data_inicio : option string;
  f_data_fim : option string;
  f_filename_contains : option string
}.

Definition sem_filtros : Filtros := mkFiltros None None None None None.

(** The five [if ... : continue] tests: [true] when the loop reaches
    [resultado.append(arquivo)]. *)
Definition passa (filtros : Filtros) (arquivo : DataFile) : bool :=
  if match f_layer filtros with
     | Some l => negb (String.eqb (layer arquivo) l) | None => false end
  then false
  else if match f_category filtros with
     | Some c => negb (String.eqb (category arquivo) c) | None => false end
  then false
  else if match f_data_inicio filtros with
     | Some d => PyStr.lt (date arquivo) d | None => false end
  then false
  else if match f_data_fim filtros with
     | Some d => PyStr.gt (date arquivo) d | None => false end
  then false
  else if match f_filename_contains filtros with
     | Some t => negb (PyStr.contains t (filename arquivo)) | None => false end
  then false
  else true.

Definition visit_arquivo (filtros : Filtros) (resultado : list DataFile)
    (arquivo : DataFile) : list DataFile :=
  if passa filtros arquivo then resultado ++ [arquivo] else resultado.

Definition buscar_arquivos_por_filtro (client : Minio) (filtros : Filtros)
    : list DataFile :=
  let arquivos := listar_arquivos_disponiveis client None None in
  fold_left (visit_arquivo filtros) arquivos [].

End Listing.

(** ** Calendar dates *)

(** The dates a [datetime] can hold. *)
Definition valid_date (d : datetime) : Prop :=
  1 <= year d < 10 * 1000 /\ 1 <= month d <= 12 /\ 1 <= day d <= 31.

(** Calendar order on (year, month, day). *)
Definition date_compare (a b : datetime) : comparison :=
  match Nat.compare (year a) (year b) with
  | Eq => match Nat.compare (month a) (month b) with
          | Eq => Nat.compare (day a) (day b)
          | c => c
          end
  | c => c
  end.

Ltac split_compare :=
  repeat match goal with
  | |- context [Nat.compare ?x ?y] => destruct (Nat.compare_spec x y)
  end; try reflexivity; exfalso; lia.

Ltac bound_digit x := pose proof (Nat.mod_upper_bound x 10 ltac:(lia)).

(** ** What sorting by a key means *)

Section SortSpec.
Context {A : Type} (key : A -> string).

(** Keys in non-decreasing, respectively non-increasing, order. *)
Definition key_le (a b : A) : Prop := String.leb (key a) (key b) = true.
Definition key_ge (a b : A) : Prop := String.leb (key b) (key a) = true.

(** The elements whose key is [k]. *)
Definition with_key (k : string) (a : A) : bool := String.eqb (key a) k.

End SortSpec.

(** ** What the listing and the filter are expected to give *)

Module ListingSpec.

(** The layers a call visits. *)
Definition requested_layers (layer : option string) : list string :=
  if truthy_str layer then [default "" layer] else Listing.all_layers.

(** The entries of one layer in the order of the client's answer, none when
    the call fails. *)
Definition entries_of_layer (client : Minio) (category : option string)
    (current_layer : string) : list DataFile :=
  match MinIOClient.list_objects client current_layer category with
  | Ok objects => omap (Codec.decode current_layer) objects
  | Raise _ => []
  end.

(** All entries, layer after layer. *)
Definition adapter_order (client : Minio) (layer category : option string)
    : list DataFile :=
  flat_map (entries_of_layer client category) (requested_layers layer).

(** [needle] occurs in [hay]. *)
Definition substring (needle hay : string) : Prop :=
  exists pre post, hay = pre +:+ needle +:+ post.

(** An entry meets every predicate that was supplied. *)
Definition satisfaz (filtros : Listing.Filtros) (a : DataFile) : Prop :=
  (forall l, Listing.f_layer filtros = Some l -> layer a = l) /\
  (forall c, Listing.f_category filtros = Some c -> category a = c) /\
  (forall d, Listing.f_data_inicio filtros = Some d ->
     String.leb d (date a) = true) /\
  (forall d, Listing.f_data_fim filtros = Some d ->
     String.leb (date a) d = true) /\
  (forall t, Listing.f_filename_contains filtros = Some t ->
     substring t (filename a)).

End ListingSpec.

(** ** Sample stores *)

Module Samples.

(** A landing bucket holding one object whose key has four pieces. *)
Definition short_key_client : Minio :=
  mkMinio
    (fun bucket _ =>
       if String.eqb bucket "reclameaqui-landing"
       then Ok ["rankings/2024/01/02"] else Ok [])
    (fun _ _ => Raise S3Error).

(** The keys of three buckets, the raw one empty. *)
Definition three_layer_keys (bucket : string) : list string :=
  if String.eqb bucket "reclameaqui-landing"
  then ["rankings/2024/01/10/ranking_a_b_1.json";
        "categorias/2024/01/02/categorias_1.json"]
  else if String.eqb bucket "reclameaqui-trusted"
  then ["rankings/2024/01/10/ranking_c_d_1.json"; "README"]
  else [].

(** Listing the raw bucket fails with [failure]. *)
Definition failing_raw_client (failure : exn) : Minio :=
  mkMinio
    (fun bucket _ =>
       if String.eqb bucket "reclameaqui-raw" then Raise failure
       else Ok (three_layer_keys bucket))
    (fun _ _ => Raise S3Error).

(** The same store with a raw bucket that lists as empty. *)
Definition empty_raw_client : Minio :=
  mkMinio (fun bucket _ => Ok (three_layer_keys bucket))
          (fun _ _ => Raise S3Error).

(** Three empty buckets. *)
Definition empty_client : Minio :=
  mkMinio (fun _ _ => Ok []) (fun _ _ => Raise S3Error).

End Samples.

(** ** JSON documents *)

(** A Python [float]: a finite value [mantissa * 2 ^ exponent], an infinity
    or a NaN. *)
Inductive pyfloat :=
| Finite (mantissa exponent : Z)
| Infinity (negative : bool)
| NaN.

(** What [json.loads] returns: [None], [bool], [int], [float], [str], [list]
    and [dict].  A [dict] is the list of its items in insertion order; its
    keys are distinct. *)
Inductive JSON :=
| JNull
| JBool (b : bool)
| JInt (n : Z)
| JFloat (f : pyfloat)
| JStr (s : string)
| JList (items : list JSON)
| JObj (fields : list (string * JSON)).

(** [bool(v)], the test of [if v:] *)
Definition truthy (v : JSON) : bool :=
  match v with
  | JNull => false
  | JBool b => b
  | JInt n => negb (Z.eqb n 0)
  | JFloat (Finite m _) => negb (Z.eqb m 0)
  | JFloat _ => true
  | JStr s => negb (String.eqb s "")
  | JList items => match items with [] => false | _ => true end
  | JObj fields => match fields with [] => false | _ => true end
  end.

(** ** The reader and its cache ([DataReader], data_reader.py) *)

(** The state of a [DataReader]: [_data_cache], [_file_cache], and the
    [get_object] calls it has made through its client, latest last. *)
Record Reader := mkReader {
  data_cache : gmap string JSON;
  file_cache : gmap string JSON;
  downloads : list (string * string)
}.

Definition new_reader : Reader := mkReader ∅ ∅ [].

(** A method of the reader: from a state to a value or an exception, and the
    state it leaves. *)
Record M (A : Type) := mkM { run : Reader -> result A * Reader }.
Arguments mkM {A} run.
Arguments run {A} m st.

Definition ret {A} (a : A) : M A := mkM (fun st => (Ok a, st)).
Definition bind {A B} (m : M A) (k : A -> M B) : M B :=
  mkM (fun st =>
    match run m st with
    | (Ok a, st') => run (k a) st'
    | (Raise e, st') => (Raise e, st')
    end).

Notation "'let!' x ':=' m 'in' k" := (bind m (fun x => k))
  (at level 10, x name, m at level 100, k at level 200).

Definition lift {A} (r : result A) : M A := mkM (fun st => (r, st)).
Definition get_cache : M (gmap string JSON) :=
  mkM (fun st => (Ok (data_cache st), st)).
Definition set_cache (key : string) (v : JSON) : M unit :=
  mkM (fun st =>
    (Ok tt, mkReader (<[key := v]> (data_cache st)) (file_cache st)
                     (downloads st))).
Definition log_download (bucket key : string) : M unit :=
  mkM (fun st =>
    (Ok tt, mkReader (data_cache st) (file_cache st)
                     (downloads st ++ [(bucket, key)]))).

(** [try: body except S3Error: return None] *)
Definition except_S3Error (body : M JSON) : M JSON :=
  mkM (fun st =>
    match run body st with
    | (Raise S3Error, st') => (Ok JNull, st')
    | other => other
    end).

Module DataReader.
Section Reader.

(** [response.read().decode('utf-8')] followed by [json.loads]. *)
Context (json_loads : string -> result JSON).
Context (client : Minio).

(** [MinIOClient.download_json] *)
Definition download_json (layer object_path : string) : M JSON :=
  except_S3Error
    (let! bucket_name := lift (MinIOClient.buckets layer) in
     let! _ := log_download bucket_name object_path in
     let! json_data :=
       lift (client_get_object client bucket_name object_path) in
     lift (json_loads json_data)).

Definition carregar_dados (layer object_path : string) (use_cache : bool)
    : M JSON :=
  let cache_key := layer +:+ ":" +:+ object_path in
  let! cache := get_cache in
  match (if use_cache then cache !! cache_key else None) with
  | Some cached => ret cached
  | None =>
      let! dados := download_json layer object_path in
      let! _ := (if truthy dados && use_cache
                 then set_cache cache_key dados else ret tt) in
      ret dados
  end.

Definition limpar_cache : M unit :=
  mkM (fun st => (Ok tt, mkReader ∅ ∅ (downloads st))).

End Reader.
End DataReader.

(** ** What the cache is expected to give *)

Module CacheSpec.
Section Cache.
Context (json_loads : string -> result JSON) (client : Minio).

(** Two calls of [carregar_dados(layer, path, use_cache=True)] in a row. *)
Definition two_fetches (layer object_path : string) : M (JSON * JSON) :=
  let! first :=
    DataReader.carregar_dados json_loads client layer object_path true in
  let! second :=
    DataReader.carregar_dados json_loads client layer object_path true in
  ret (first, second).

(** The object stored under [object_path] in the bucket of [layer] parses
    to [doc]. *)
Definition stored_document (layer object_path : string) (doc : JSON) : Prop :=
  exists bucket_name body,
    MinIOClient.buckets layer = Ok bucket_name
    /\ client_get_object client bucket_name object_path = Ok body
    /\ json_loads body = Ok doc.

(** Both calls return the stored document and one [get_object] call is
    made in all. *)
Definition cache_idempotent (st : Reader) (layer object_path : string)
    : Prop :=
  forall doc, stored_document layer object_path doc ->
  exists st',
    run (two_fetches layer object_path) st = (Ok (doc, doc), st')
    /\ length (downloads st') = S (length (downloads st)).

End Cache.
End CacheSpec.

Module CacheSamples.

(** A parser for the two bodies of the sample store. *)
Definition json_loads (body : string) : result JSON :=
  if String.eqb body "{}" then Ok (JObj [])
  else if String.eqb body "[1]" then Ok (JList [JInt 1])
  else Raise JSONDecodeError.

(** A landing bucket with an empty document and a document of one item. *)
Definition client : Minio :=
  mkMinio
    (fun _ _ => Ok ["categorias/2024/01/02/vazio.json";
                    "categorias/2024/01/02/um.json"])
    (fun bucket key =>
       if negb (String.eqb bucket "reclameaqui-landing") then Raise S3Error
       else if String.eqb key "categorias/2024/01/02/vazio.json" then Ok "{}"
       else if String.eqb key "categorias/2024/01/02/um.json" then Ok "[1]"
       else Raise S3Error).

End CacheSamples.

(** ** Python operations on JSON values *)

Module Py.

(** Dictionaries as lists of items in insertion order. *)
Fixpoint dict_get (k : string) (fields : list (string * JSON)) : option JSON :=
  match fields with
  | [] => None
  | (k', v) :: rest => if String.eqb k' k then Some v else dict_get k rest
  end.

(** [d[k] = v]: the value is replaced where the key stands, a new key goes
    last. *)
Fixpoint dict_set (k : string) (v : JSON) (fields : list (string * JSON))
    : list (string * JSON) :=
  match fields with
  | [] => [(k, v)]
  | (k', v') :: rest =>
      if String.eqb k' k then (k', v) :: rest
      else (k', v') :: dict_set k v rest
  end.

(** A dictionary display [{k1: v1, ...}] and [d.update({k1: v1, ...})]. *)
Definition dict_update (fields items : list (string * JSON))
    : list (string * JSON) :=
  fold_left (fun d kv => dict_set (fst kv) (snd kv) d) items fields.
Definition dict_of (items : list (string * JSON)) : JSON :=
  JObj (dict_update [] items).

Definition is_str (k : string) (v : JSON) : bool :=
  match v with
  | JStr s => String.eqb s k
  | _ => false
  end.

(** [k in v] for a string [k]: a key of a dict, an item of a list, a part
    of a string; a [TypeError] on anything else. *)
Definition contains (k : string) (v : JSON) : result bool :=
  match v with
  | JObj fields => Ok (bool_decide (is_Some (dict_get k fields)))
  | JList items => Ok (existsb (is_str k) items)
  | JStr s => Ok (PyStr.contains k s)
  | _ => Raise TypeError
  end.

(** [v.get(k, default)]: only a dict has the method. *)
Definition get (v : JSON) (k : string) (default : JSON) : result JSON :=
  match v with
  | JObj fields => Ok (from_option id default (dict_get k fields))
  | _ => Raise AttributeError
  end.

(** [v[k]] for a string [k]. *)
Definition getitem (v : JSON) (k : string) : result JSON :=
  match v with
  | JObj fields =>
      match dict_get k fields with
      | Some x => Ok x
      | None => Raise KeyError
      end
  | _ => Raise TypeError
  end.

(** The characters of a string, as [for c in s] gives them (one per byte
    here; the callers never look at more than whether there is one). *)
Fixpoint chars (s : string) : list JSON :=
  match s with
  | EmptyString => []
  | String c rest => JStr (String c EmptyString) :: chars rest
  end.

(** [for x in v]: the items of a list, the keys of a dict, the characters of
    a string. *)
Definition iter (v : JSON) : result (list JSON) :=
  match v with
  | JList items => Ok items
  | JObj fields => Ok (map (fun kv => JStr (fst kv)) fields)
  | JStr s => Ok (chars s)
  | _ => Raise TypeError
  end.

(** [v.copy()]: dicts and lists have it. *)
Definition copy (v : JSON) : result JSON :=
  match v with
  | JObj _ | JList _ => Ok v
  | _ => Raise AttributeError
  end.

(** Looking up [v.update]: only a dict has it. *)
Definition update_method (v : JSON) : result (list (string * JSON)) :=
  match v with
  | JObj fields => Ok fields
  | _ => Raise AttributeError
  end.

(** [v[:limit]] for [limit >= 0]. *)
Definition take (limit : nat) (v : JSON) : result JSON :=
  match v with
  | JList items => Ok (JList (firstn limit items))
  | JStr s => Ok (JStr (String.substring 0 limit s))
  | _ => Raise TypeError
  end.

(** A loop that builds a list and stops at the first exception. *)
Fixpoint for_each {A B} (body : B -> A -> result B) (l : list A) (acc : B)
    : result B :=
  match l with
  | [] => Ok acc
  | x :: rest =>
      match body acc x with
      | Ok acc' => for_each body rest acc'
      | Raise e => Raise e
      end
  end.

(** [try: body except Exception: handler] *)
Definition try_except {A} (body : result A) (handler : result A) : result A :=
  match body with
  | Ok a => Ok a
  | Raise _ => handler
  end.

End Py.

(** ** Data frames *)

(** A column label: a string, or a position when pandas numbers the
    columns. *)
Inductive label :=
| LStr (s : string)
| LInt (n : nat).

#[global] Instance label_eq_dec : EqDecision label.
Proof. solve_decision. Defined.

(** A frame: its column labels and its rows, each row with one cell per
    column. *)
Record DataFrame := mkFrame {
  columns : list label;
  rows : list (list JSON)
}.

Module Frame.

(** [pd.DataFrame()] *)
Definition empty_frame : DataFrame := mkFrame [] [].

(** The keys of the records in the order in which they first occur. *)
Definition add_keys (seen : list string) (record : list (string * JSON))
    : list string :=
  fold_left (fun acc kv =>
               if bool_decide (fst kv ∈ acc) then acc else acc ++ [fst kv])
            record seen.

Definition record_keys (records : list (list (string * JSON)))
    : list string :=
  fold_left add_keys records [].

(** [pd.DataFrame(records)] for a list of dicts: one row per dict, one
    column per key, NaN where a dict lacks a key. *)
Definition from_records (records : list (list (string * JSON)))
    : DataFrame :=
  let keys := record_keys records in
  mkFrame (map LStr keys)
    (map (fun record =>
            map (fun k => from_option id (JFloat NaN) (Py.dict_get k record))
                keys)
         records).

(** The items of a list when all of them are dicts. *)
Fixpoint as_records (items : list JSON)
    : option (list (list (string * JSON))) :=
  match items with
  | [] => Some []
  | JObj fields :: rest => cons fields <$> as_records rest
  | _ :: _ => None
  end.

(** [df.empty]: no row or no column. *)
Definition empty (df : DataFrame) : bool :=
  match rows df, columns df with
  | [], _ | _, [] => true
  | _, _ => false
  end.

(** [c in df.columns] *)
Definition has_column (c : string) (df : DataFrame) : bool :=
  bool_decide (LStr c ∈ columns df).

Fixpoint position (c : label) (cols : list label) : option nat :=
  match cols with
  | [] => None
  | c' :: rest =>
      if bool_decide (c' = c) then Some 0 else S <$> position c rest
  end.

(** [df[c] = v] for a scalar [v]: the column is overwritten where it
    stands, or added last. *)
Definition set_column (c : string) (v : JSON) (df : DataFrame) : DataFrame :=
  match position (LStr c) (columns df) with
  | Some i => mkFrame (columns df) (map (fun row => <[i := v]> row) (rows df))
  | None => mkFrame (columns df ++ [LStr c]) (map (fun row => row ++ [v]) (rows df))
  end.

(** The cells of [df[c]]. *)
Definition column_values (c : string) (df : DataFrame) : list JSON :=
  match position (LStr c) (columns df) with
  | Some i => map (fun row => List.nth i row JNull) (rows df)
  | None => []
  end.

End Frame.

(** What is left to pandas: the frame built from anything but a list of
    dicts, the order [sort_values] gives to rows, the statistics of a
    column, and the row-wise selection of [listar_categorias_com_dados] (from
    the frame of categories, the pairs that have ranking files and the names
    of those files). *)
Record Pandas := mkPandas {
  frame_of_other : JSON -> result DataFrame;
  sort_rows : nat -> bool -> list (list JSON) -> list (list JSON);
  series_mean : list JSON -> result JSON;
  series_median : list JSON -> result JSON;
  series_min : list JSON -> result JSON;
  series_max : list JSON -> result JSON;
  series_std : list JSON -> result JSON;
  select_and_count :
    DataFrame -> gset (string * string) -> list string -> result DataFrame
}.

Module PandasOps.
Section Ops.
Context (pandas : Pandas).

(** [pd.DataFrame(data)] *)
Definition DataFrame_of (data : JSON) : result DataFrame :=
  match data with
  | JList items =>
      match Frame.as_records items with
      | Some records => Ok (Frame.from_records records)
      | None => frame_of_other pandas data
      end
  | _ => frame_of_other pandas data
  end.

(** [df.sort_values(by, ascending=...)]: a [KeyError] when [by] is not a
    column. *)
Definition sort_values (by_ : string) (ascending : bool) (df : DataFrame)
    : result DataFrame :=
  match Frame.position (LStr by_) (columns df) with
  | Some i => Ok (mkFrame (columns df) (sort_rows pandas i ascending (rows df)))
  | None => Raise KeyError
  end.

End Ops.
End PandasOps.

(** ** Decoding documents into frames ([converter_para_dataframe]) *)

Module Decoder.
Section Decoder.
Context (pandas : Pandas).

(** The detection under [if tipo == 'auto':], which runs before the [try]. *)
Definition detectar (dados : JSON) (tipo : string) : result string :=
  if String.eqb tipo "auto" then
    let* is_cat := Py.contains "mainSegments" dados in
    if is_cat then Ok "categorias" else
    let* is_rank := Py.contains "companies" dados in
    if is_rank then Ok "rankings" else
    match dados with
    | JList (first :: _) =>
        let* is_of := Py.contains "company_info" first in
        if is_of then Ok "ofertas" else Ok tipo
    | _ => Ok tipo
    end
  else Ok tipo.

(** One turn of [for subseg in seg.get('childrenSegments', [])]. *)
Definition visit_subseg (seg : JSON) (categorias : list JSON) (subseg : JSON)
    : result (list JSON) :=
  let* main_segment := Py.getitem seg "shortname" in
  let* main_title := Py.getitem seg "title" in
  let* secondary_segment := Py.getitem subseg "shortname" in
  let* secondary_title := Py.getitem subseg "title" in
  let* main_icon := Py.get seg "icon" JNull in
  let* secondary_icon := Py.get subseg "icon" JNull in
  Ok (categorias ++
      [Py.dict_of [("main_segment", main_segment);
                   ("main_title", main_title);
                   ("secondary_segment", secondary_segment);
                   ("secondary_title", secondary_title);
                   ("main_icon", main_icon);
                   ("secondary_icon", secondary_icon)]]).

(** One turn of [for seg in dados.get('mainSegments', [])]. *)
Definition visit_seg (categorias : list JSON) (seg : JSON)
    : result (list JSON) :=
  let* children := Py.get seg "childrenSegments" (JList []) in
  let* subsegs := Py.iter children in
  Py.for_each (visit_subseg seg) subsegs categorias.

Definition decode_categorias (dados : JSON) : result DataFrame :=
  let* segments := Py.get dados "mainSegments" (JList []) in
  let* segs := Py.iter segments in
  let* categorias := Py.for_each visit_seg segs [] in
  PandasOps.DataFrame_of pandas (JList categorias).

Definition decode_rankings (dados : JSON) : result DataFrame :=
  let* empresas := Py.get dados "companies" (JList []) in
  PandasOps.DataFrame_of pandas empresas.

(** One turn of [for item in dados] in the offers branch. *)
Definition visit_item (empresas_ofertas : list JSON) (item : JSON)
    : result (list JSON) :=
  let* has_info := Py.contains "company_info" item in
  if has_info then
    let* company_info := Py.getitem item "company_info" in
    let* empresa := Py.copy company_info in
    let* fields := Py.update_method empresa in
    let* total_discounts := Py.get item "total_discounts" (JInt 0) in
    let* total_coupons := Py.get item "total_coupons" (JInt 0) in
    let* total_offers := Py.get item "total_offers" (JInt 0) in
    Ok (empresas_ofertas ++
        [JObj (Py.dict_update fields
                 [("total_discounts", total_discounts);
                  ("total_coupons", total_coupons);
                  ("total_offers", total_offers)])])
  else Ok empresas_ofertas.

Definition decode_ofertas (dados : JSON) : result DataFrame :=
  let* items := Py.iter dados in
  let* empresas_ofertas := Py.for_each visit_item items [] in
  PandasOps.DataFrame_of pandas (JList empresas_ofertas).

(** The [else] branch: the generic conversion. *)
Definition decode_generico (dados : JSON) : result DataFrame :=
  match dados with
  | JList _ => PandasOps.DataFrame_of pandas dados
  | JObj [(_, value)] => PandasOps.DataFrame_of pandas value
  | _ => PandasOps.DataFrame_of pandas (JList [dados])
  end.

(** The body of the [try]. *)
Definition decode (dados : JSON) (tipo : string) : result DataFrame :=
  if String.eqb tipo "categorias" then decode_categorias dados
  else if String.eqb tipo "rankings" then decode_rankings dados
  else if String.eqb tipo "ofertas" then decode_ofertas dados
  else decode_generico dados.

(** The [except Exception] handler: [pd.DataFrame([dados])]. *)
Definition fallback (dados : JSON) : result DataFrame :=
  PandasOps.DataFrame_of pandas (JList [dados]).

Definition converter_para_dataframe (dados : JSON) (tipo : string)
    : result DataFrame :=
  let* tipo' := detectar dados tipo in
  Py.try_except (decode dados tipo') (fallback dados).

End Decoder.
End Decoder.

(** ** What decoding a taxonomy is expected to give *)

Module TaxonomySpec.

Definition field (k : string) (v : JSON) : option JSON :=
  match v with
  | JObj fields => Py.dict_get k fields
  | _ => None
  end.

(** The children of a main segment: the list under [childrenSegments], none
    when the field is absent. *)
Definition children (seg : JSON) : option (list JSON) :=
  match seg with
  | JObj fields =>
      match Py.dict_get "childrenSegments" fields with
      | None => Some []
      | Some (JList subsegs) => Some subsegs
      | Some _ => None
      end
  | _ => None
  end.

Definition has_name_and_title (v : JSON) : bool :=
  match field "shortname" v, field "title" v with
  | Some _, Some _ => true
  | _, _ => false
  end.

(** A main segment: an object whose children, if any, are objects with a
    short name and a title, as it has itself when it has children. *)
Definition main_ok (seg : JSON) : bool :=
  match children seg with
  | Some [] => true
  | Some subsegs => has_name_and_title seg && forallb has_name_and_title subsegs
  | None => false
  end.

Definition main_segments (doc : JSON) : option (list JSON) :=
  match field "mainSegments" doc with
  | Some (JList segs) => Some segs
  | _ => None
  end.

(** A taxonomy document: an object with a list of main segments under
    [mainSegments]. *)
Definition taxonomy_ok (doc : JSON) : bool :=
  match main_segments doc with
  | Some segs => forallb main_ok segs
  | None => false
  end.

(** The (main segment, child segment) pairs in document order. *)
Definition pairs (doc : JSON) : list (JSON * JSON) :=
  flat_map (fun seg => map (pair seg) (default [] (children seg)))
           (default [] (main_segments doc)).

Definition six_keys : list string :=
  ["main_segment"; "main_title"; "secondary_segment"; "secondary_title";
   "main_icon"; "secondary_icon"].

Definition six_columns : list label :=
  [LStr "main_segment"; LStr "main_title"; LStr "secondary_segment";
   LStr "secondary_title"; LStr "main_icon"; LStr "secondary_icon"].

(** The row of a pair: names and titles, and the icons or [None]. *)
Definition row_of (p : JSON * JSON) : list JSON :=
  [default JNull (field "shortname" (fst p));
   default JNull (field "title" (fst p));
   default JNull (field "shortname" (snd p));
   default JNull (field "title" (snd p));
   default JNull (field "icon" (fst p));
   default JNull (field "icon" (snd p))].

(** The same row as the dict the loop appends. *)
Definition record_of (p : JSON * JSON) : list (string * JSON) :=
  match row_of p with
  | [a; b; c; d; e; f] =>
      [("main_segment", a); ("main_title", b); ("secondary_segment", c);
       ("secondary_title", d); ("main_icon", e); ("secondary_icon", f)]
  | _ => []
  end.

Definition expected_frame (doc : JSON) : DataFrame :=
  mkFrame (match pairs doc with [] => [] | _ => six_columns end)
          (map row_of (pairs doc)).

End TaxonomySpec.

Module DecoderSamples.

(** A pandas that builds frames from lists of dicts only. *)
Definition records_only : Pandas :=
  mkPandas (fun _ => Raise ValueError) (fun _ _ rows => rows)
           (fun _ => Raise TypeError) (fun _ => Raise TypeError)
           (fun _ => Raise TypeError) (fun _ => Raise TypeError)
           (fun _ => Raise TypeError) (fun _ _ _ => Raise ValueError).

(** The taxonomy document of the specification's example. *)
Definition bancos : JSON :=
  JObj [("mainSegments",
         JList [JObj [("shortname", JStr "bancos");
                      ("title", JStr "Bancos");
                      ("childrenSegments",
                       JList [JObj [("shortname", JStr "cartoes");
                                    ("title", JStr "Cartões")]])]])].


End DecoderSamples.

(** ** Loading documents ([DataReader], continued) *)

(** A loop over a list inside a method of the reader. *)
Fixpoint for_each_M {A B} (body : B -> A -> M B) (l : list A) (acc : B)
    : M B :=
  match l with
  | [] => ret acc
  | x :: rest => let! acc' := body acc x in for_each_M body rest acc'
  end.

(** An item of the list returned by [carregar_rankings_categoria]. *)
Record Ranking := mkRanking {
  data_coleta : string;
  arquivo : string;
  dados : JSON
}.

Module Loader.
Section Loader.
Context (json_loads : string -> result JSON) (client : Minio).

(** [carregar_ultima_coleta]: [None] when nothing is listed, else the
    document of the first entry. *)
Definition carregar_ultima_coleta (category layer : string) : M JSON :=
  let arquivos :=
    Listing.buscar_arquivos_por_filtro client
      (Listing.mkFiltros (Some layer) (Some category) None None None) in
  match arquivos with
  | [] => ret JNull
  | arquivo_recente :: _ =>
      DataReader.carregar_dados json_loads client layer
        (path arquivo_recente) true
  end.

Definition carregar_todas_categorias (layer : string) : M JSON :=
  carregar_ultima_coleta "categorias" layer.

Definition visit_ranking (layer : string) (resultados : list Ranking)
    (arquivo : DataFile) : M (list Ranking) :=
  let! dados :=
    DataReader.carregar_dados json_loads client layer (path arquivo) true in
  if truthy dados
  then ret (resultados ++ [mkRanking (date arquivo) (filename arquivo) dados])
  else ret resultados.

Definition carregar_rankings_categoria (main_segment secondary_segment
    layer : string) : M (list Ranking) :=
  let filtro_nome :=
    "ranking_" +:+ main_segment +:+ "_" +:+ secondary_segment in
  let arquivos :=
    Listing.buscar_arquivos_por_filtro client
      (Listing.mkFiltros (Some layer) (Some "rankings") None None
         (Some filtro_nome)) in
  for_each_M (visit_ranking layer) arquivos [].

End Loader.
End Loader.

(** ** Aggregation ([DataAnalyzer], data_helpers.py) *)

Module DataAnalyzer.
Section Analyzer.
Context (pandas : Pandas) (json_loads : string -> result JSON)
        (client : Minio).

Definition obter_top_empresas_categoria (main_segment secondary_segment
    : string) (limit : nat) : M DataFrame :=
  let! rankings :=
    Loader.carregar_rankings_categoria json_loads client main_segment
      secondary_segment "landing" in
  match rankings with
  | [] => ret Frame.empty_frame
  | recente :: _ =>
      let ranking_recente := dados recente in
      let! has_companies := lift (Py.contains "companies" ranking_recente) in
      if negb has_companies then ret Frame.empty_frame
      else
        let! companies := lift (Py.getitem ranking_recente "companies") in
        let! top := lift (Py.take limit companies) in
        let! df := lift (PandasOps.DataFrame_of pandas top) in
        ret (Frame.set_column "data_coleta" (JStr (data_coleta recente))
              (Frame.set_column "secondary_segment" (JStr secondary_segment)
                (Frame.set_column "main_segment" (JStr main_segment) df)))
  end.

(** The dict [stats] of one category. *)
Definition estatisticas (main_seg sec_seg metric : string)
    (df_categoria : DataFrame) : result JSON :=
  let valores := Frame.column_values metric df_categoria in
  let* media := series_mean pandas valores in
  let* mediana := series_median pandas valores in
  let* minimo := series_min pandas valores in
  let* maximo := series_max pandas valores in
  let* desvio := series_std pandas valores in
  Ok (Py.dict_of
        [("main_segment", JStr main_seg);
         ("secondary_segment", JStr sec_seg);
         ("categoria_completa", JStr (main_seg +:+ "/" +:+ sec_seg));
         ("total_empresas", JInt (Z.of_nat (length (rows df_categoria))));
         (metric +:+ "_media", media);
         (metric +:+ "_mediana", mediana);
         (metric +:+ "_min", minimo);
         (metric +:+ "_max", maximo);
         (metric +:+ "_std", desvio)]).

(** One turn of [for main_seg, sec_seg in categorias]. *)
Definition visit_categoria (metric : string) (resultados : list JSON)
    (categoria : string * string) : M (list JSON) :=
  let main_seg := fst categoria in
  let sec_seg := snd categoria in
  let! df_categoria := obter_top_empresas_categoria main_seg sec_seg 50 in
  if negb (Frame.empty df_categoria) && Frame.has_column metric df_categoria
  then
    let! stats := lift (estatisticas main_seg sec_seg metric df_categoria) in
    ret (resultados ++ [stats])
  else ret resultados.

Definition comparar_categorias (categorias : list (string * string))
    (metric : string) : M DataFrame :=
  let! resultados := for_each_M (visit_categoria metric) categorias [] in
  lift (let* frame := PandasOps.DataFrame_of pandas (JList resultados) in
        PandasOps.sort_values pandas (metric +:+ "_media") false frame).

(** The pair of segments a ranking file name stands for, if any. *)
Definition segmentos_do_arquivo (filename : string)
    : option (string * string) :=
  if PyStr.contains "ranking_" filename then
    let parts :=
      PyStr.split "_"%char
        (PyStr.replace ".json" "" (PyStr.replace "ranking_" "" filename)) in
    match parts with
    | main_seg :: sec_seg :: _ => Some (main_seg, sec_seg)
    | _ => None
    end
  else None.

Definition visit_arquivo_ranking (categorias_com_dados : gset (string * string))
    (arquivo : DataFile) : gset (string * string) :=
  match segmentos_do_arquivo (filename arquivo) with
  | Some par => categorias_com_dados ∪ {[ par ]}
  | None => categorias_com_dados
  end.

(** [listar_categorias_com_dados].  The three pandas statements that close
    it (the rows whose pair is in [categorias_com_dados], the count of the
    ranking files naming each pair, the sort by that count) are
    [select_and_count]. *)
Definition listar_categorias_com_dados : M DataFrame :=
  let! categorias :=
    Loader.carregar_todas_categorias json_loads client "landing" in
  if negb (truthy categorias) then ret Frame.empty_frame
  else
    let arquivos_ranking :=
      Listing.buscar_arquivos_por_filtro client
        (Listing.mkFiltros None (Some "rankings") None None None) in
    let categorias_com_dados :=
      fold_left visit_arquivo_ranking arquivos_ranking ∅ in
    let! df_categorias :=
      lift (Decoder.converter_para_dataframe pandas categorias "categorias") in
    lift (select_and_count pandas df_categorias categorias_com_dados
            (map filename arquivos_ranking)).

End Analyzer.
End DataAnalyzer.

(** ** File names given by the collector (reclame_aqui_pipeline.py) *)

Module Pipeline.

(** [f"ranking_{main_segment}_{secondary_segment}_{pagina}.json"], the name
    [coletar_ranking_categoria] uploads under; [pagina] is the page number
    as it prints. *)
Definition ranking_filename (main_segment secondary_segment pagina : string)
    : string :=
  "ranking_" +:+ main_segment +:+ "_" +:+ secondary_segment +:+ "_" +:+
  pagina +:+ ".json".

(** [f"empresa_{shortname}.json"], the name of [coletar_empresa_detalhada]. *)
Definition empresa_filename (shortname : string) : string :=
  "empresa_" +:+ shortname +:+ ".json".

(** [f"reclamacoes_{company_id}.json"], the name of [coletar_reclamacoes]. *)
Definition reclamacoes_filename (company_id : string) : string :=
  "reclamacoes_" +:+ company_id +:+ ".json".

(** [sorted(objects)[-1]], how [executar_pipeline_basica] and
    [top_empresas] pick the latest file; [None] stands for an empty list,
    which the callers test before. *)
Definition latest_file (objects : list string) : option string :=
  List.last (map Some (PySort.sort_asc (fun key => key) objects)) None.

End Pipeline.

(** ** What more the listing is expected to give *)

Module ListingMore.

(** The shape an entry has: its key has four pieces or more, the first is
    the category, the next three joined are the date, the last is the file
    name. *)
Definition entry_shape (a : DataFile) : Prop :=
  exists cat y m d rest,
    PyStr.split PyStr.slash (path a) = cat :: y :: m :: d :: rest
    /\ category a = cat
    /\ date a = y +:+ "/" +:+ m +:+ "/" +:+ d
    /\ filename a = List.last (d :: rest) "".

(** The keyword arguments [layer=l]. *)
Definition so_layer (l : string) : Listing.Filtros :=
  Listing.mkFiltros (Some l) None None None None.

(** The keyword arguments of [carregar_rankings_categoria]. *)
Definition filtro_ranking (main_segment secondary_segment layer : string)
    : Listing.Filtros :=
  Listing.mkFiltros (Some layer) (Some "rankings") None None
    (Some ("ranking_" +:+ main_segment +:+ "_" +:+ secondary_segment)).

End ListingMore.

(** ** Loading companies and complaints ([DataReader], continued) *)

(** An item of the list returned by [carregar_reclamacoes_empresa]. *)
Record Reclamacao := mkReclamacao {
  rc_data_coleta : string;
  rc_tipo : string;
  rc_dados : JSON
}.

Module LoaderMore.
Section LoaderMore.
Context (json_loads : string -> result JSON) (client : Minio).

(** The keyword arguments of [carregar_dados_empresa]. *)
Definition filtro_empresa (shortname layer : string) : Listing.Filtros :=
  Listing.mkFiltros (Some layer) (Some "empresas") None None
    (Some ("empresa_" +:+ shortname)).

(** [carregar_dados_empresa]: the document of the first entry, [None] when
    nothing is listed. *)
Definition carregar_dados_empresa (shortname layer : string) : M JSON :=
  let arquivos :=
    Listing.buscar_arquivos_por_filtro client (filtro_empresa shortname layer)
  in
  match arquivos with
  | arquivo :: _ =>
      DataReader.carregar_dados json_loads client layer (path arquivo) true
  | [] => ret JNull
  end.

(** The keyword arguments of [carregar_reclamacoes_empresa]. *)
Definition filtro_reclamacoes (company_id layer : string)
    : Listing.Filtros :=
  Listing.mkFiltros (Some layer) (Some "reclamacoes") None None
    (Some company_id).

Definition visit_reclamacao (layer : string) (resultados : list Reclamacao)
    (arquivo : DataFile) : M (list Reclamacao) :=
  let! dados :=
    DataReader.carregar_dados json_loads client layer (path arquivo) true in
  if truthy dados
  then ret (resultados ++
            [mkReclamacao (date arquivo)
               (if PyStr.contains "avaliadas" (filename arquivo)
                then "avaliadas" else "todas")
               dados])
  else ret resultados.

Definition carregar_reclamacoes_empresa (company_id layer : string)
    : M (list Reclamacao) :=
  let arquivos :=
    Listing.buscar_arquivos_por_filtro client
      (filtro_reclamacoes company_id layer) in
  for_each_M (visit_reclamacao layer) arquivos [].

End LoaderMore.
End LoaderMore.

Module LoaderSamples.

(** A landing bucket with two ranking files of one pair and two complaint
    files of one company; every object reads as [[1]]. *)
Definition client : Minio :=
  mkMinio
    (fun bucket _ =>
       if String.eqb bucket "reclameaqui-landing"
       then Ok ["rankings/2024/01/10/ranking_a_b_1.json";
                "rankings/2024/01/12/ranking_a_b_2.json";
                "reclamacoes/2024/01/10/reclamacoes_77.json";
                "reclamacoes/2024/01/11/reclamacoes_77_avaliadas.json"]
       else Ok [])
    (fun bucket _ =>
       if String.eqb bucket "reclameaqui-landing" then Ok "[1]"
       else Raise S3Error).

End LoaderSamples.

(** ** The report ([gerar_relatorio_dados]) *)

(** An item of [arquivos_recentes]. *)
Record Recente := mkRecente {
  rec_arquivo : string;
  rec_categoria : string;
  rec_camada : string;
  rec_data : string
}.

(** The dict returned by [gerar_relatorio_dados]; [periodo_inicio] and
    [periodo_fim] are the two items of [periodo_dados]. *)
Record Relatorio := mkRelatorio {
  total_arquivos : nat;
  por_camada : gmap string nat;
  por_categoria : gmap string nat;
  periodo_inicio : option string;
  periodo_fim : option string;
  arquivos_recentes : list Recente
}.

Module Report.

(** [if k not in d: d[k] = 0] followed by [d[k] += 1]. *)
Definition conta (k : string) (d : gmap string nat) : gmap string nat :=
  let d' := match d !! k with
            | None => <[k := 0]> d
            | Some _ => d
            end in
  <[k := default 0 (d' !! k) + 1]> d'.

(** One turn of [for arquivo in arquivos]. *)
Definition visit (counts : gmap string nat * gmap string nat)
    (arquivo : DataFile) : gmap string nat * gmap string nat :=
  (conta (layer arquivo) (fst counts), conta (category arquivo) (snd counts)).

(** [min(datas)] and [max(datas)]: the first of the least, respectively
    greatest, strings; [None] stands for the empty list, on which the code
    does not call them. *)
Definition py_min (datas : list string) : option string :=
  match datas with
  | [] => None
  | d :: rest =>
      Some (fold_left (fun acc x => if PyStr.lt x acc then x else acc) rest d)
  end.

Definition py_max (datas : list string) : option string :=
  match datas with
  | [] => None
  | d :: rest =>
      Some (fold_left (fun acc x => if PyStr.gt x acc then x else acc) rest d)
  end.

Definition resumo (arq : DataFile) : Recente :=
  mkRecente (filename arq) (category arq) (layer arq) (date arq).

Definition gerar_relatorio_dados (client : Minio) : Relatorio :=
  let arquivos := Listing.listar_arquivos_disponiveis client None None in
  let counts := fold_left visit arquivos (∅, ∅) in
  let datas := map date arquivos in
  mkRelatorio (length arquivos) (fst counts) (snd counts)
    (py_min datas) (py_max datas)
    (match arquivos with
     | [] => []
     | _ => map resumo (firstn 10 arquivos)
     end).

(** How many entries have [k] under [field]. *)
Definition ocorrencias (field : DataFile -> string) (k : string)
    (arquivos : list DataFile) : nat :=
  length (List.filter (fun a => String.eqb (field a) k) arquivos).

(** What a dict of counts holds for a key that occurs [n] times. *)
Definition contagem (n : nat) : option nat :=
  match n with
  | O => None
  | S _ => Some n
  end.

End Report.

Module DecoderMoreSamples.

(** A list of two records that are not offers. *)
Definition duas_linhas : JSON :=
  JList [JObj [("id", JInt 1); ("nome", JStr "a")];
         JObj [("id", JInt 2)]].

(** The specification's example of an offers document. *)
Definition ofertas : JSON :=
  JList [JObj [("company_info",
                JObj [("id", JStr "1"); ("name", JStr "X")]);
               ("total_discounts", JInt 5)];
         JObj [("outro", JInt 0)]].

(** A ranking document with two companies. *)
Definition ranking : JSON :=
  JObj [("companies",
         JList [JObj [("id", JStr "1"); ("finalScore", JInt 9)];
                JObj [("id", JStr "2"); ("finalScore", JInt 7)]]);
        ("total", JInt 2)].

End DecoderMoreSamples.

(** ** What decoding offers is expected to give *)

Module OffersSpec.

Definition counters : list string :=
  ["total_discounts"; "total_coupons"; "total_offers"].

(** An item of an offers list: an object whose [company_info], when it has
    one, is an object. *)
Definition item_ok (item : JSON) : bool :=
  match item with
  | JObj fields =>
      match Py.dict_get "company_info" fields with
      | Some (JObj _) | None => true
      | Some _ => false
      end
  | _ => false
  end.

(** The row of an item: its [company_info] with the three counters of the
    item set, each 0 when the item lacks it; no row for an item without
    [company_info]. *)
Definition offer_record (item : JSON) : option (list (string * JSON)) :=
  match item with
  | JObj fields =>
      match Py.dict_get "company_info" fields with
      | Some (JObj info) =>
          Some (Py.dict_update info
                  (map (fun k => (k, from_option id (JInt 0)
                                       (Py.dict_get k fields)))
                       counters))
      | _ => None
      end
  | _ => None
  end.

End OffersSpec.

(** ** Writing to the store ([MinIOClient], runner.py, continued) *)

Module Uploader.
Section Uploader.

(** [self.client.put_object(bucket, key, body, ...)] and
    [json.dumps(data, indent=2, ensure_ascii=False)]. *)
Context (put_object : string -> string -> string -> result unit).
Context (json_dumps : JSON -> string).
Context (json_loads : string -> result JSON) (client : Minio).

(** [upload_json]: the path [f"{bucket_name}/{object_path}"], [None] after
    an [S3Error]; any other exception, and the [KeyError] of an unknown
    layer, leave the function.  [stamp] and [now] are the two readings of
    the clock. *)
Definition upload_json (data : JSON) (layer category : string)
    (filename : option string) (stamp now : datetime)
    : result (option string) :=
  let object_path := Codec.object_path category stamp now filename in
  let json_data := json_dumps data in
  let body :=
    (let* bucket_name := MinIOClient.buckets layer in
     let* _ := put_object bucket_name object_path json_data in
     Ok (Some (bucket_name +:+ "/" +:+ object_path))) in
  match body with
  | Raise S3Error => Ok None
  | r => r
  end.

(** The dict [processed_data] of [backup_to_raw]; [processed_at] is
    [datetime.now().isoformat()]. *)
Definition processed_data (processed_at landing_object_path : string)
    (data : JSON) : JSON :=
  Py.dict_of
    [("metadata",
      Py.dict_of
        [("processed_at", JStr processed_at);
         ("source_path", JStr ("landing/" +:+ landing_object_path));
         ("pipeline_stage", JStr "raw")]);
     ("data", data)].

(** The category [backup_to_raw] uploads under: the one given, else the
    first piece of the landing key. *)
Definition categoria_raw (landing_object_path : string)
    (raw_category : option string) : string :=
  match raw_category with
  | Some c => c
  | None => List.nth 0 (PyStr.split PyStr.slash landing_object_path) ""
  end.

Definition backup_to_raw (landing_object_path : string)
    (raw_category : option string) (processed_at : string)
    (stamp now : datetime) : M (option string) :=
  let! data :=
    DataReader.download_json json_loads client "landing" landing_object_path
  in
  if negb (truthy data) then ret None
  else
    lift (upload_json
            (processed_data processed_at landing_object_path data) "raw"
            (categoria_raw landing_object_path raw_category) None stamp now).

End Uploader.
End Uploader.

Module UploaderSamples.

(** A store that takes every object, and one that is unreachable. *)
Definition put_ok (bucket key body : string) : result unit := Ok tt.
Definition put_down (bucket key body : string) : result unit :=
  Raise ConnectionError.

(** A serializer for the two documents of [CacheSamples]. *)
Definition json_dumps (doc : JSON) : string :=
  match doc with
  | JObj [] => "{}"
  | _ => "[1]"
  end.

Definition noon : datetime := mkDatetime 2024 3 5 12 0 0.

End UploaderSamples.

(** ** What the uploader is expected to give *)

(** One call of [upload_json]: the two readings of the clock and the file
    name given, if any. *)
Record Upload := mkUpload {
  up_stamp : datetime;
  up_now : datetime;
  up_filename : option string
}.

Module UploaderSpec.

(** The key the call writes under a category. *)
Definition uploaded_key (category : string) (u : Upload) : string :=
  Codec.object_path category (up_stamp u) (up_now u) (up_filename u).

(** The entry the listing is expected to make of a key written by
    [upload_json] without a file name. *)
Definition default_entry (lay category : string) (stamp now : datetime)
    : DataFile :=
  {| path := Codec.object_path category stamp now None;
     layer := lay;
     category := category;
     filename := category +:+ "_" +:+ Codec.strftime_stamp stamp +:+ ".json";
     date := Codec.strftime_Ymd now |}.

End UploaderSpec.

(** ** The taxonomy claim as it is worded *)

Module TaxonomyClaim.

(** The domain of the claim: the field [mainSegments] is present. *)
Definition taxonomy_document (doc : JSON) : Prop :=
  is_Some (TaxonomySpec.field "mainSegments" doc).

(** What the claim promises of one document: the decode gives a frame with
    exactly one row per (main segment, child segment) pair. *)
Definition one_row_per_pair (pandas : Pandas) (doc : JSON) (tipo : string)
    : Prop :=
  exists df,
    Decoder.converter_para_dataframe pandas doc tipo = Ok df
    /\ rows df = map TaxonomySpec.row_of (TaxonomySpec.pairs doc).

(** A taxonomy whose one main segment has [null] for its children. *)
Definition sem_filhos : JSON :=
  JObj [("mainSegments",
         JList [JObj [("shortname", JStr "a");
                      ("title", JStr "A");
                      ("childrenSegments", JNull)]])].

End TaxonomyClaim.

(* ================================================================== *)
(** * Properties *)

Example split_key :
  PyStr.split PyStr.slash "rankings/2024/01/10/ranking_bancos_cartoes_1.json"
  = ["rankings"; "2024"; "01"; "10"; "ranking_bancos_cartoes_1.json"].
Proof. reflexivity. Qed.

Example decode_key :
  Codec.decode "landing" "rankings/2024/01/10/r.json"
  = Some (mkDataFile "rankings/2024/01/10/r.json" "landing" "rankings"
            "r.json" "2024/01/10").
Proof. reflexivity. Qed.

Example encode_key :
  Codec.object_path "rankings" (mkDatetime 2024 1 10 9 5 7)
    (mkDatetime 2024 1 10 9 5 8) None
  = "rankings/2024/01/10/rankings_20240110_090507.json".
Proof. reflexivity. Qed.

(** ** Splitting and joining *)

Lemma has_char_append c a b :
  PyStr.has_char c (a +:+ b) = PyStr.has_char c a || PyStr.has_char c b.
Proof.
  induction a as [|d a IH]; simpl; [done|].
  by rewrite IH, orb_assoc.
Qed.

Lemma split_nonempty sep s : PyStr.split sep s <> [].
Proof.
  induction s as [|c s IH]; simpl; [done|].
  destruct (Ascii.eqb c sep); [done|].
  by destruct (PyStr.split sep s).
Qed.

Lemma split_no_sep sep s :
  PyStr.has_char sep s = false -> PyStr.split sep s = [s].
Proof.
  induction s as [|c s IH]; simpl; [done|].
  intros [Hc Hs]%orb_false_iff. rewrite Hc, (IH Hs). done.
Qed.

Lemma split_first_piece sep a b :
  PyStr.has_char sep a = false ->
  PyStr.split sep (a +:+ String sep b) = a :: PyStr.split sep b.
Proof.
  induction a as [|c a IH]; simpl.
  - intros _. by rewrite Ascii.eqb_refl.
  - intros [Hc Ha]%orb_false_iff. rewrite Hc, (IH Ha). done.
Qed.

Lemma digit_not_slash n : Ascii.eqb (Codec.digit n) PyStr.slash = false.
Proof.
  unfold Codec.digit.
  assert (H : n mod 10 < 10) by (apply Nat.mod_upper_bound; lia).
  revert H. generalize (n mod 10). intros k Hk.
  do 10 (destruct k as [|k]; [reflexivity|]). lia.
Qed.

Lemma two_digits_no_slash n :
  PyStr.has_char PyStr.slash (Codec.two_digits n) = false.
Proof.
  unfold Codec.two_digits. cbn [PyStr.has_char]. by rewrite !digit_not_slash.
Qed.

Lemma four_digits_no_slash n :
  PyStr.has_char PyStr.slash (Codec.four_digits n) = false.
Proof.
  unfold Codec.four_digits. cbn [PyStr.has_char]. by rewrite !digit_not_slash.
Qed.

Lemma append_assoc (a b c : string) : (a +:+ b) +:+ c = a +:+ b +:+ c.
Proof.
  induction a as [|x a IH]; [done|].
  change (String x ((a +:+ b) +:+ c) = String x (a +:+ b +:+ c)).
  by rewrite IH.
Qed.

Lemma append_nil_r (a : string) : a +:+ "" = a.
Proof.
  induction a as [|x a IH]; [done|].
  change (String x (a +:+ "") = String x a). by rewrite IH.
Qed.

Lemma sep_append x : "/" +:+ x = String PyStr.slash x.
Proof. reflexivity. Qed.

Lemma split_object_path cat stamp now f :
  PyStr.has_char PyStr.slash cat = false ->
  PyStr.split PyStr.slash (Codec.object_path cat stamp now (Some f))
  = cat :: Codec.four_digits (year now) :: Codec.two_digits (month now)
    :: Codec.two_digits (day now) :: PyStr.split PyStr.slash f.
Proof.
  intros Hcat. unfold Codec.object_path, Codec.strftime_Ymd, Codec.upload_filename.
  rewrite !append_assoc, !sep_append.
  rewrite (split_first_piece _ _ _ Hcat).
  rewrite (split_first_piece _ _ _ (four_digits_no_slash _)).
  rewrite (split_first_piece _ _ _ (two_digits_no_slash _)).
  rewrite (split_first_piece _ _ _ (two_digits_no_slash _)).
  done.
Qed.

(** ** Dates and their lexical order *)

Lemma digit_compare a b :
  Ascii.compare (Codec.digit a) (Codec.digit b)
  = Nat.compare (a mod 10) (b mod 10).
Proof.
  unfold Codec.digit.
  assert (Ha : a mod 10 < 10) by (apply Nat.mod_upper_bound; lia).
  assert (Hb : b mod 10 < 10) by (apply Nat.mod_upper_bound; lia).
  revert Ha Hb. generalize (a mod 10) (b mod 10). intros x y Hx Hy.
  do 10 (destruct x as [|x];
         [do 10 (destruct y as [|y]; [reflexivity|]); lia|]).
  lia.
Qed.

Lemma four_digit_parts n :
  n < 10 * 1000 ->
  n = 1000 * ((n / 1000) mod 10) + 100 * ((n / 100) mod 10)
      + 10 * ((n / 10) mod 10) + n mod 10.
Proof.
  intros Hn.
  pose proof (Nat.div_mod_eq n 10).
  pose proof (Nat.div_mod_eq (n / 10) 10).
  pose proof (Nat.div_mod_eq (n / 100) 10).
  pose proof (Nat.div_mod_eq (n / 1000) 10).
  replace (n / 100) with (n / 10 / 10) in *
    by (rewrite Nat.Div0.div_div; reflexivity).
  replace (n / 1000) with (n / 10 / 10 / 10) in *
    by (rewrite !Nat.Div0.div_div; reflexivity).
  assert (n / 10 / 10 / 10 / 10 = 0).
  { rewrite !Nat.Div0.div_div. apply Nat.div_small. simpl. lia. }
  lia.
Qed.

Lemma two_digit_parts n :
  n < 100 -> n = 10 * ((n / 10) mod 10) + n mod 10.
Proof.
  intros Hn.
  pose proof (Nat.div_mod_eq n 10).
  pose proof (Nat.div_mod_eq (n / 10) 10).
  assert (n / 10 / 10 = 0).
  { rewrite Nat.Div0.div_div. apply Nat.div_small. simpl. lia. }
  lia.
Qed.

Lemma four_digits_compare a b s t :
  a < 10 * 1000 -> b < 10 * 1000 ->
  String.compare (Codec.four_digits a +:+ s) (Codec.four_digits b +:+ t)
  = match Nat.compare a b with Eq => String.compare s t | c => c end.
Proof.
  intros Ha Hb. unfold Codec.four_digits.
  change (String.compare
    (String (Codec.digit (a / 1000)) (String (Codec.digit (a / 100))
      (String (Codec.digit (a / 10)) (String (Codec.digit a) s))))
    (String (Codec.digit (b / 1000)) (String (Codec.digit (b / 100))
      (String (Codec.digit (b / 10)) (String (Codec.digit b) t))))
    = match Nat.compare a b with Eq => String.compare s t | c => c end).
  cbn [String.compare]. rewrite !digit_compare.
  pose proof (four_digit_parts a Ha) as Ea.
  pose proof (four_digit_parts b Hb) as Eb.
  bound_digit (a / 1000). bound_digit (a / 100). bound_digit (a / 10).
  bound_digit a.
  bound_digit (b / 1000). bound_digit (b / 100). bound_digit (b / 10).
  bound_digit b.
  revert Ea Eb.
  generalize dependent ((a / 1000) mod 10). generalize dependent ((a / 100) mod 10).
  generalize dependent ((a / 10) mod 10). generalize dependent (a mod 10).
  generalize dependent ((b / 1000) mod 10). generalize dependent ((b / 100) mod 10).
  generalize dependent ((b / 10) mod 10). generalize dependent (b mod 10).
  intros. split_compare.
Qed.

Lemma two_digits_compare a b s t :
  a < 100 -> b < 100 ->
  String.compare (Codec.two_digits a +:+ s) (Codec.two_digits b +:+ t)
  = match Nat.compare a b with Eq => String.compare s t | c => c end.
Proof.
  intros Ha Hb. unfold Codec.two_digits.
  change (String.compare
    (String (Codec.digit (a / 10)) (String (Codec.digit a) s))
    (String (Codec.digit (b / 10)) (String (Codec.digit b) t))
    = match Nat.compare a b with Eq => String.compare s t | c => c end).
  cbn [String.compare]. rewrite !digit_compare.
  pose proof (two_digit_parts a Ha) as Ea.
  pose proof (two_digit_parts b Hb) as Eb.
  bound_digit (a / 10). bound_digit a. bound_digit (b / 10). bound_digit b.
  revert Ea Eb.
  generalize dependent ((a / 10) mod 10). generalize dependent (a mod 10).
  generalize dependent ((b / 10) mod 10). generalize dependent (b mod 10).
  intros. split_compare.
Qed.

Lemma strftime_Ymd_compare a b :
  valid_date a -> valid_date b ->
  String.compare (Codec.strftime_Ymd a) (Codec.strftime_Ymd b)
  = date_compare a b.
Proof.
  intros (Hy & Hm & Hd) (Hy' & Hm' & Hd').
  unfold Codec.strftime_Ymd, date_compare.
  rewrite four_digits_compare by lia.
  destruct (Nat.compare (year a) (year b)); try reflexivity.
  rewrite !sep_append. cbn [String.compare].
  change (Ascii.compare PyStr.slash PyStr.slash) with Eq. cbv iota.
  rewrite two_digits_compare by lia.
  destruct (Nat.compare (month a) (month b)); try reflexivity.
  cbn [String.compare].
  change (Ascii.compare PyStr.slash PyStr.slash) with Eq. cbv iota.
  rewrite <- (append_nil_r (Codec.two_digits (day a))).
  rewrite <- (append_nil_r (Codec.two_digits (day b))).
  rewrite two_digits_compare by lia.
  by destruct (Nat.compare (day a) (day b)).
Qed.

Lemma strftime_Ymd_length now : String.length (Codec.strftime_Ymd now) = 10.
Proof. reflexivity. Qed.

(** C1. A key built by [upload_json] from a category and a file name that
    hold no ['/'] is decoded by the listing loop into an entry with that
    category, that file name and the date of the upload; the date is the ten
    characters [YYYY/MM/DD], and on such dates the order of the strings is
    the order of the calendar. *)
Theorem path_codec_round_trip (lay cat f : string) (stamp now : datetime) :
  PyStr.has_char PyStr.slash cat = false ->
  PyStr.has_char PyStr.slash f = false ->
  Codec.decode lay (Codec.object_path cat stamp now (Some f))
  = Some {| path := Codec.object_path cat stamp now (Some f);
            layer := lay; category := cat; filename := f;
            date := Codec.strftime_Ymd now |}
  /\ String.length (Codec.strftime_Ymd now) = 10
  /\ (forall other, valid_date now -> valid_date other ->
        String.compare (Codec.strftime_Ymd now) (Codec.strftime_Ymd other)
        = date_compare now other).
Proof.
  intros Hcat Hf. split; [|split].
  - unfold Codec.decode.
    rewrite (split_object_path _ _ _ _ Hcat), (split_no_sep _ _ Hf).
    reflexivity.
  - apply strftime_Ymd_length.
  - intros other. apply strftime_Ymd_compare.
Qed.

Lemma path_codec_round_trip_witness :
  Codec.decode "landing"
    (Codec.object_path "rankings" (mkDatetime 2024 1 10 9 5 7)
       (mkDatetime 2024 1 10 9 5 7) (Some "ranking_bancos_cartoes_1.json"))
  = Some (mkDataFile "rankings/2024/01/10/ranking_bancos_cartoes_1.json"
            "landing" "rankings" "ranking_bancos_cartoes_1.json"
            "2024/01/10").
Proof.
  exact (proj1 (path_codec_round_trip "landing" "rankings"
                  "ranking_bancos_cartoes_1.json"
                  (mkDatetime 2024 1 10 9 5 7) (mkDatetime 2024 1 10 9 5 7)
                  eq_refl eq_refl)).
Defined.

(** ** The order on strings *)

Lemma leb_iff a b :
  String.leb a b = true <-> OrderedTypeEx.String_as_OT.lt a b \/ a = b.
Proof.
  unfold String.leb.
  rewrite <- OrderedTypeEx.String_as_OT.cmp_lt, <- OrderedTypeEx.String_as_OT.cmp_eq.
  unfold OrderedTypeEx.String_as_OT.cmp.
  destruct (String.compare a b); intuition congruence.
Qed.

Lemma leb_refl a : String.leb a a = true.
Proof. apply leb_iff. by right. Qed.

Lemma leb_trans a b c :
  String.leb a b = true -> String.leb b c = true -> String.leb a c = true.
Proof.
  rewrite !leb_iff. intros [H1| ->] [H2| ->]; auto.
  left. eapply OrderedTypeEx.String_as_OT.lt_trans; eauto.
Qed.

Lemma leb_false a b : String.leb a b = false -> String.leb b a = true.
Proof. destruct (String.leb_total a b) as [H|H]; congruence. Qed.

Lemma ltb_leb a b : String.ltb a b = negb (String.leb b a).
Proof.
  unfold String.ltb, String.leb. rewrite (String.compare_antisym a b).
  by destruct (String.compare b a).
Qed.

(** ** Sorting *)

Section SortFacts.
Context {A : Type} (key : A -> string).

Lemma insert_perm x l : Permutation (PySort.insert key x l) (x :: l).
Proof.
  induction l as [|y l IH]; simpl; [done|].
  destruct (PyStr.le (key x) (key y)); [done|].
  rewrite IH. apply perm_swap.
Qed.

Lemma sort_asc_perm l : Permutation (PySort.sort_asc key l) l.
Proof.
  induction l as [|x l IH]; simpl; [done|].
  by rewrite insert_perm, IH.
Qed.

Lemma insert_sorted x l :
  StronglySorted (key_le key) l -> StronglySorted (key_le key) (PySort.insert key x l).
Proof.
  induction 1 as [|y l Hl IH Hy]; simpl.
  - repeat constructor.
  - destruct (PyStr.le (key x) (key y)) eqn:E.
    + constructor; [by constructor|]. constructor; [exact E|].
      eapply Forall_impl; [exact Hy|]. intros z Hz. unfold key_le in *.
      eapply leb_trans; eauto.
    + constructor; [exact IH|].
      rewrite insert_perm. constructor; [|exact Hy].
      by apply leb_false.
Qed.

Lemma sort_asc_sorted l : StronglySorted (key_le key) (PySort.sort_asc key l).
Proof.
  induction l as [|x l IH]; simpl; [constructor|]. by apply insert_sorted.
Qed.

Lemma insert_stable k x l :
  List.filter (with_key key k) (PySort.insert key x l)
  = List.filter (with_key key k) (x :: l).
Proof.
  induction l as [|y l IH]; [done|]. cbn [PySort.insert].
  destruct (PyStr.le (key x) (key y)) eqn:E; [done|].
  cbn [List.filter] in *. rewrite IH. unfold with_key.
  destruct (String.eqb_spec (key x) k) as [Hx|Hx];
    destruct (String.eqb_spec (key y) k) as [Hy|Hy]; try done.
  unfold PyStr.le in E. rewrite Hx, Hy, leb_refl in E. done.
Qed.

Lemma sort_asc_stable k l :
  List.filter (with_key key k) (PySort.sort_asc key l)
  = List.filter (with_key key k) l.
Proof.
  induction l as [|x l IH]; [done|]. cbn [PySort.sort_asc].
  rewrite insert_stable. cbn [List.filter]. by rewrite IH.
Qed.

Lemma sorted_rev (R : A -> A -> Prop) l :
  StronglySorted R l -> StronglySorted (fun a b => R b a) (rev l).
Proof.
  induction 1 as [|x l Hl IH Hx]; simpl; [constructor|].
  apply StronglySorted_app_2; [|exact IH|repeat constructor].
  intros a b Ha Hb. apply list_elem_of_singleton in Hb as ->.
  rewrite Forall_forall in Hx. apply Hx.
  apply list_elem_of_In, in_rev, list_elem_of_In. exact Ha.
Qed.

Lemma list_sort_perm r l : Permutation (PySort.list_sort key r l) l.
Proof.
  destruct r; simpl; [|apply sort_asc_perm].
  by rewrite <- Permutation_rev, sort_asc_perm, <- Permutation_rev.
Qed.

Lemma list_sort_reverse_sorted l :
  StronglySorted (key_ge key) (PySort.list_sort key true l).
Proof. apply (sorted_rev (key_le key)), sort_asc_sorted. Qed.

Lemma list_sort_stable k r l :
  List.filter (with_key key k) (PySort.list_sort key r l)
  = List.filter (with_key key k) l.
Proof.
  destruct r; simpl; [|apply sort_asc_stable].
  by rewrite List.filter_rev, sort_asc_stable, List.filter_rev, rev_involutive.
Qed.

Lemma with_key_self (x : A) : with_key key (key x) x = true.
Proof. apply String.eqb_refl. Qed.

Lemma filter_head_in k (x : A) l l' :
  List.filter (with_key key k) l = x :: l' -> In x l /\ key x = k.
Proof.
  intros H. assert (Hin : In x (List.filter (with_key key k) l))
    by (rewrite H; by left).
  apply filter_In in Hin as [? Hk]. split; [done|].
  by apply String.eqb_eq in Hk.
Qed.

(** Two sorted lists that agree on the elements of every key, in their
    order, are the same list: a stable sort has one possible result. *)
Lemma stable_sorted_unique l1 l2 :
  StronglySorted (key_le key) l1 -> StronglySorted (key_le key) l2 ->
  (forall k, List.filter (with_key key k) l1 = List.filter (with_key key k) l2) ->
  l1 = l2.
Proof.
  intros H1. revert l2. induction H1 as [|x l1 Hl1 IH Hx]; intros l2 H2 Hf.
  - destruct l2 as [|y l2]; [done|].
    specialize (Hf (key y)). cbn [List.filter] in Hf.
    by rewrite with_key_self in Hf.
  - destruct H2 as [|y l2 Hl2 Hy].
    { specialize (Hf (key x)). cbn [List.filter] in Hf.
      by rewrite with_key_self in Hf. }
    assert (Hxy : x = y).
    { pose proof (Hf (key x)) as Fx. pose proof (Hf (key y)) as Fy.
      cbn [List.filter] in Fx, Fy. rewrite with_key_self in Fx, Fy.
      unfold with_key in Fx at 2. unfold with_key in Fy at 1.
      destruct (String.eqb_spec (key y) (key x)) as [E|E]; [congruence|].
      destruct (String.eqb_spec (key x) (key y)) as [E'|_]; [congruence|].
      symmetry in Fx. apply filter_head_in in Fx as [Hin _].
      apply filter_head_in in Fy as [Hin' _].
      rewrite Forall_forall in Hx, Hy.
      apply list_elem_of_In in Hin, Hin'.
      exfalso. apply E. symmetry.
      apply String.leb_antisym; [apply (Hx _ Hin')|apply (Hy _ Hin)]. }
    subst y. f_equal. apply IH; [done|]. intros k.
    specialize (Hf k). cbn [List.filter] in Hf.
    destruct (with_key key k x); congruence.
Qed.

(** Whatever stable ascending sort [list.sort] runs, it returns what
    [sort_asc] returns. *)
Lemma sort_asc_unique (l out : list A) :
  StronglySorted (key_le key) out ->
  (forall k, List.filter (with_key key k) out = List.filter (with_key key k) l) ->
  out = PySort.sort_asc key l.
Proof.
  intros Hs Hf. apply stable_sorted_unique; [done|apply sort_asc_sorted|].
  intros k. by rewrite Hf, sort_asc_stable.
Qed.

(** The same for [reverse=True]: a list that is sorted from the highest key
    down and keeps the order of the elements of every key is the result of
    [list_sort]. *)
Lemma list_sort_reverse_unique (l out : list A) :
  StronglySorted (key_ge key) out ->
  (forall k, List.filter (with_key key k) out = List.filter (with_key key k) l) ->
  out = PySort.list_sort key true l.
Proof.
  intros Hs Hf. unfold PySort.list_sort.
  rewrite <- (rev_involutive out). f_equal.
  apply sort_asc_unique.
  - apply (sorted_rev (key_ge key)), Hs.
  - intros k. by rewrite !List.filter_rev, Hf.
Qed.

End SortFacts.

(** ** The listing loop *)

Lemma visit_objects_spec lay objects arquivos :
  fold_left (Listing.visit_object lay) objects arquivos
  = arquivos ++ omap (Codec.decode lay) objects.
Proof.
  revert arquivos. induction objects as [|o objects IH]; intros arquivos; simpl.
  - by rewrite app_nil_r.
  - rewrite IH. unfold Listing.visit_object.
    destruct (Codec.decode lay o); [|done]. by rewrite <- app_assoc.
Qed.

Lemma visit_layer_spec client cat arquivos lay :
  Listing.visit_layer client cat arquivos lay
  = arquivos ++ ListingSpec.entries_of_layer client cat lay.
Proof.
  unfold Listing.visit_layer, ListingSpec.entries_of_layer.
  destruct (MinIOClient.list_objects client lay cat).
  - apply visit_objects_spec.
  - by rewrite app_nil_r.
Qed.

Lemma visit_layers_spec client cat layers arquivos :
  fold_left (Listing.visit_layer client cat) layers arquivos
  = arquivos ++ flat_map (ListingSpec.entries_of_layer client cat) layers.
Proof.
  revert arquivos. induction layers as [|l layers IH]; intros arquivos; simpl.
  - by rewrite app_nil_r.
  - by rewrite IH, visit_layer_spec, <- app_assoc.
Qed.

Lemma gather_spec client layer cat :
  Listing.gather client layer cat = ListingSpec.adapter_order client layer cat.
Proof.
  unfold Listing.gather, ListingSpec.adapter_order, ListingSpec.requested_layers.
  rewrite visit_layers_spec. by destruct layer as [[|c l]|].
Qed.

(** C2. Every listing is sorted by date, latest first, under the order of
    strings; the entries of one date stand in the order in which the layers
    were visited and the client answered; the sort only reorders. *)
Theorem listing_sorted_stable (client : Minio) (layer cat : option string) :
  let out := Listing.listar_arquivos_disponiveis client layer cat in
  StronglySorted (key_ge date) out
  /\ (forall d, List.filter (with_key date d) out
              = List.filter (with_key date d)
                  (ListingSpec.adapter_order client layer cat))
  /\ Permutation out (ListingSpec.adapter_order client layer cat).
Proof.
  unfold Listing.listar_arquivos_disponiveis. rewrite gather_spec.
  split; [|split].
  - apply list_sort_reverse_sorted.
  - intros d. apply list_sort_stable.
  - apply list_sort_perm.
Qed.

Lemma decode_layer lay o a : Codec.decode lay o = Some a -> layer a = lay.
Proof.
  unfold Codec.decode. destruct (Nat.leb _ _); [|done]. by intros [= <-].
Qed.

Lemma entries_of_layer_layer client cat lay :
  Forall (fun a => layer a = lay) (ListingSpec.entries_of_layer client cat lay).
Proof.
  unfold ListingSpec.entries_of_layer.
  destruct (MinIOClient.list_objects client lay cat) as [objects|]; [|constructor].
  apply Forall_forall. intros a [o [_ Ho]]%list_elem_of_omap.
  by apply decode_layer in Ho.
Qed.

(** C6. When listing one layer fails, no entry of that layer is returned and
    the listing is the one of a store where that layer is empty and nothing
    else differs. *)
Theorem layer_failure_isolated (client client' : Minio)
    (lay cat : option string) (bad : string) (e : exn) :
  MinIOClient.list_objects client bad cat = Raise e ->
  MinIOClient.list_objects client' bad cat = Ok [] ->
  (forall l, l <> bad ->
     MinIOClient.list_objects client l cat
     = MinIOClient.list_objects client' l cat) ->
  Listing.listar_arquivos_disponiveis client lay cat
  = Listing.listar_arquivos_disponiveis client' lay cat
  /\ Forall (fun a => layer a <> bad)
       (Listing.listar_arquivos_disponiveis client lay cat).
Proof.
  intros Hbad Hbad' Hother.
  assert (Hsame : forall l, ListingSpec.entries_of_layer client cat l
                          = ListingSpec.entries_of_layer client' cat l).
  { intros l. unfold ListingSpec.entries_of_layer.
    destruct (decide (l = bad)) as [->|Hne].
    - by rewrite Hbad, Hbad'.
    - by rewrite (Hother l Hne). }
  split.
  - unfold Listing.listar_arquivos_disponiveis. rewrite !gather_spec.
    unfold ListingSpec.adapter_order. f_equal.
    apply flat_map_ext. intros l. apply Hsame.
  - unfold Listing.listar_arquivos_disponiveis.
    rewrite list_sort_perm, gather_spec. unfold ListingSpec.adapter_order.
    apply Forall_flat_map, Forall_forall. intros l _.
    destruct (decide (l = bad)) as [->|Hne].
    + unfold ListingSpec.entries_of_layer. rewrite Hbad. constructor.
    + eapply Forall_impl; [apply entries_of_layer_layer|].
      simpl. intros a ->. done.
Qed.

Lemma layer_failure_isolated_witness :
  Listing.listar_arquivos_disponiveis
    (Samples.failing_raw_client ConnectionError) None None
  = Listing.listar_arquivos_disponiveis Samples.empty_raw_client None None
  /\ Forall (fun a => layer a <> "raw")
       (Listing.listar_arquivos_disponiveis
          (Samples.failing_raw_client ConnectionError) None None).
Proof.
  apply (layer_failure_isolated
           (Samples.failing_raw_client ConnectionError)
           Samples.empty_raw_client None None "raw" ConnectionError).
  - reflexivity.
  - reflexivity.
  - intros l Hl. unfold MinIOClient.list_objects, MinIOClient.buckets.
    destruct (String.eqb_spec l "landing") as [->|_]; [reflexivity|].
    destruct (String.eqb_spec l "raw") as [->|_]; [done|].
    destruct (String.eqb_spec l "trusted") as [->|_]; reflexivity.
Defined.

(** ** The filter *)

Lemma append_cons c (a b : string) : String c a +:+ b = String c (a +:+ b).
Proof. reflexivity. Qed.

Lemma startswith_iff p s :
  PyStr.startswith p s = true <-> exists post, s = p +:+ post.
Proof.
  revert s. induction p as [|a p IH]; intros s.
  - split; [intros _; by exists s|done].
  - destruct s as [|b s]; simpl.
    + split; [done|]. by intros [post ?].
    + rewrite andb_true_iff, IH, Ascii.eqb_eq. split.
      * intros [-> [post ->]]. by exists post.
      * intros [post H]. rewrite append_cons in H.
        injection H as -> ->. eauto.
Qed.

Lemma contains_iff needle hay :
  PyStr.contains needle hay = true <-> ListingSpec.substring needle hay.
Proof.
  unfold ListingSpec.substring. split.
  - induction hay as [|c hay IH]; simpl.
    + rewrite orb_false_r. intros [post ?]%startswith_iff. by exists "", post.
    + intros [[post ?]%startswith_iff|H]%orb_true_iff.
      * by exists "", post.
      * destruct (IH H) as (pre & post & ->). by exists (String c pre), post.
  - intros (pre & post & ->). induction pre as [|c pre IH].
    + change ("" +:+ needle +:+ post) with (needle +:+ post).
      assert (H : PyStr.startswith needle (needle +:+ post) = true)
        by (apply startswith_iff; eauto).
      destruct (needle +:+ post); simpl in *; by rewrite H.
    + rewrite append_cons. simpl. rewrite IH. apply orb_true_r.
Qed.

Lemma passa_conj filtros a :
  Listing.passa filtros a
  = from_option (String.eqb (layer a)) true (Listing.f_layer filtros)
    && from_option (String.eqb (category a)) true (Listing.f_category filtros)
    && from_option (fun d => String.leb d (date a)) true
         (Listing.f_data_inicio filtros)
    && from_option (String.leb (date a)) true (Listing.f_data_fim filtros)
    && from_option (fun t => PyStr.contains t (filename a)) true
         (Listing.f_filename_contains filtros).
Proof.
  unfold Listing.passa, PyStr.lt, PyStr.gt.
  destruct filtros as [[l|] [c|] [i|] [e|] [n|]]; simpl; rewrite ?ltb_leb;
    repeat match goal with
    | |- context [negb ?b] => destruct b; simpl
    end; reflexivity.
Qed.

Lemma from_option_true {X} (f : X -> bool) (o : option X) :
  from_option f true o = true <-> forall x, o = Some x -> f x = true.
Proof.
  destruct o as [x|]; simpl.
  - split; [by intros H y [= <-]|auto].
  - split; [done|auto].
Qed.

Lemma passa_iff filtros a :
  Listing.passa filtros a = true <-> ListingSpec.satisfaz filtros a.
Proof.
  rewrite passa_conj, !andb_true_iff, !from_option_true.
  unfold ListingSpec.satisfaz.
  setoid_rewrite String.eqb_eq. setoid_rewrite contains_iff. tauto.
Qed.

Lemma visit_arquivos_spec filtros arquivos resultado :
  fold_left (Listing.visit_arquivo filtros) arquivos resultado
  = resultado ++ List.filter (Listing.passa filtros) arquivos.
Proof.
  revert resultado.
  induction arquivos as [|a arquivos IH]; intros resultado; simpl.
  - by rewrite app_nil_r.
  - rewrite IH. unfold Listing.visit_arquivo.
    destruct (Listing.passa filtros a); [|done]. by rewrite <- app_assoc.
Qed.

Lemma buscar_spec client filtros :
  Listing.buscar_arquivos_por_filtro client filtros
  = List.filter (Listing.passa filtros)
      (Listing.listar_arquivos_disponiveis client None None).
Proof. apply visit_arquivos_spec. Qed.

Lemma filter_sublist {X} (f : X -> bool) (l : list X) :
  sublist (List.filter f l) l.
Proof.
  induction l as [|x l IH]; simpl; [constructor|].
  destruct (f x); by constructor.
Qed.

Lemma filter_all {X} (f : X -> bool) (l : list X) :
  (forall x, f x = true) -> List.filter f l = l.
Proof.
  intros H. induction l as [|x l IH]; simpl; [done|]. by rewrite H, IH.
Qed.

(** C3. The filter returns, in the order of the full listing, exactly the
    entries that meet every supplied predicate: it is a sub-list of the
    listing and no longer than it, each of its entries meets the predicates,
    it keeps every entry that meets them, and with no predicate it is the
    listing itself. *)
Theorem filter_sound_complete (client : Minio) (filtros : Listing.Filtros) :
  let full := Listing.listar_arquivos_disponiveis client None None in
  let out := Listing.buscar_arquivos_por_filtro client filtros in
  sublist out full
  /\ length out <= length full
  /\ Forall (ListingSpec.satisfaz filtros) out
  /\ (exists keep : DataFile -> bool,
        (forall a, keep a = true <-> ListingSpec.satisfaz filtros a)
        /\ out = List.filter keep full)
  /\ Listing.buscar_arquivos_por_filtro client Listing.sem_filtros = full.
Proof.
  cbv zeta. rewrite !buscar_spec. repeat split.
  - apply filter_sublist.
  - apply sublist_length, filter_sublist.
  - apply Forall_forall. intros a Ha.
    apply list_elem_of_In, filter_In in Ha as [_ Ha]. by apply passa_iff.
  - exists (Listing.passa filtros). split; [apply passa_iff|done].
  - by apply filter_all.
Qed.

(** ** The shape of catalog entries *)

Lemma decode_short lay key :
  length (PyStr.split PyStr.slash key) < 4 -> Codec.decode lay key = None.
Proof.
  intros H. unfold Codec.decode.
  destruct (Nat.leb_spec 4 (length (PyStr.split PyStr.slash key))); [lia|done].
Qed.

Lemma decode_fields lay key a :
  Codec.decode lay key = Some a ->
  exists cat y m d rest,
    PyStr.split PyStr.slash key = cat :: y :: m :: d :: rest
    /\ category a = cat
    /\ date a = y +:+ "/" +:+ m +:+ "/" +:+ d
    /\ filename a = List.last (d :: rest) "".
Proof.
  unfold Codec.decode.
  destruct (PyStr.split PyStr.slash key) as [|cat [|y [|m [|d rest]]]];
    try done.
  intros [= <-]. exists cat, y, m, d, rest. repeat split.
Qed.

(** A key of exactly four pieces is kept, and its last piece is both the day
    of the date and the file name. *)
Lemma decode_four_pieces lay key cat y m d :
  PyStr.split PyStr.slash key = [cat; y; m; d] ->
  Codec.decode lay key
  = Some {| path := key; layer := lay; category := cat; filename := d;
            date := y +:+ "/" +:+ m +:+ "/" +:+ d |}.
Proof. intros H. unfold Codec.decode. by rewrite H. Qed.

(** C5, at a key of four pieces: the listing keeps it and takes the day for
    the file name, so the entry is not a category, a date and a file name
    apart from the date. *)
Theorem four_piece_key_listed :
  Listing.listar_arquivos_disponiveis Samples.short_key_client
    (Some "landing") None
  = [ {| path := "rankings/2024/01/02"; layer := "landing";
         category := "rankings"; filename := "02";
         date := "2024/01/02" |} ].
Proof. reflexivity. Qed.

(** ** The cache *)

Lemma run_bind {A B} (m : M A) (k : A -> M B) st :
  run (bind m k) st
  = match run m st with
    | (Ok a, st') => run (k a) st'
    | (Raise e, st') => (Raise e, st')
    end.
Proof. reflexivity. Qed.

Lemma run_ret {A} (a : A) st : run (ret a) st = (Ok a, st).
Proof. reflexivity. Qed.

Section CacheFacts.
Context (json_loads : string -> result JSON) (client : Minio).

Lemma download_json_stored st layer object_path bucket_name body doc :
  MinIOClient.buckets layer = Ok bucket_name ->
  client_get_object client bucket_name object_path = Ok body ->
  json_loads body = Ok doc ->
  run (DataReader.download_json json_loads client layer object_path) st
  = (Ok doc, mkReader (data_cache st) (file_cache st)
               (downloads st ++ [(bucket_name, object_path)])).
Proof.
  intros Hb Hg Hj. unfold DataReader.download_json, except_S3Error.
  cbn. rewrite Hb. cbn. rewrite Hg. cbn. rewrite Hj. done.
Qed.

(** A hit: the cached value, no download, the state as it was. *)
Lemma carregar_dados_hit st layer object_path cached :
  data_cache st !! (layer +:+ ":" +:+ object_path) = Some cached ->
  run (DataReader.carregar_dados json_loads client layer object_path true) st
  = (Ok cached, st).
Proof.
  intros H. unfold DataReader.carregar_dados. cbn. rewrite H. done.
Qed.

(** A miss on a stored document: one download; the document is cached when
    it is true as a condition. *)
Lemma carregar_dados_miss st layer object_path bucket_name body doc :
  data_cache st !! (layer +:+ ":" +:+ object_path) = None ->
  MinIOClient.buckets layer = Ok bucket_name ->
  client_get_object client bucket_name object_path = Ok body ->
  json_loads body = Ok doc ->
  run (DataReader.carregar_dados json_loads client layer object_path true) st
  = (Ok doc,
     mkReader (if truthy doc
               then <[layer +:+ ":" +:+ object_path := doc]> (data_cache st)
               else data_cache st)
              (file_cache st)
              (downloads st ++ [(bucket_name, object_path)])).
Proof.
  intros Hc Hb Hg Hj. unfold DataReader.carregar_dados.
  rewrite run_bind. cbn [run get_cache]. rewrite Hc, run_bind.
  rewrite (download_json_stored _ _ _ _ _ _ Hb Hg Hj).
  rewrite andb_true_r. by destruct (truthy doc), st.
Qed.

(** X7. Without the cache ([use_cache=False]) a call neither reads nor
    writes it: the answer is the download's, also for a key that is cached,
    and the cache is as before. *)
Lemma carregar_dados_no_cache st layer object_path :
  run (DataReader.carregar_dados json_loads client layer object_path false) st
  = run (DataReader.download_json json_loads client layer object_path) st
  /\ data_cache
       (snd (run (DataReader.carregar_dados json_loads client layer
                    object_path false) st))
     = data_cache st.
Proof.
  assert (H : run (DataReader.carregar_dados json_loads client layer
                     object_path false) st
              = run (DataReader.download_json json_loads client layer
                       object_path) st).
  { unfold DataReader.carregar_dados. rewrite run_bind.
    cbn [run get_cache]. rewrite run_bind.
    destruct (run (DataReader.download_json json_loads client layer
                     object_path) st) as [[dados|e] st']; [|done].
    by rewrite andb_false_r. }
  split; [exact H|]. rewrite H.
  unfold DataReader.download_json, except_S3Error, bind, lift, log_download.
  cbn [run].
  destruct (MinIOClient.buckets layer) as [b|[]]; cbn [snd data_cache]; try done;
  destruct (client_get_object client b object_path) as [body|[]];
    cbn [snd data_cache]; try done;
  destruct (json_loads body) as [doc|[]]; done.
Qed.

(** C4, as the code has it. For a stored document that is true as a
    condition (not [null], [false], zero, nor an empty string, list or
    object), two calls in a row return the same document, and the second is
    served from the cache: it makes no [get_object] call and leaves the
    reader as it is.  The first call makes exactly one [get_object] call
    and returns the stored document when the key is not cached yet; it
    makes none when the key is cached. *)
Theorem cache_idempotent_truthy (st : Reader) (layer object_path : string)
    (doc : JSON) :
  CacheSpec.stored_document json_loads client layer object_path doc ->
  truthy doc = true ->
  exists v st1,
    run (DataReader.carregar_dados json_loads client layer object_path true) st
    = (Ok v, st1)
    /\ run (DataReader.carregar_dados json_loads client layer object_path true)
         st1
       = (Ok v, st1)
    /\ run (CacheSpec.two_fetches json_loads client layer object_path) st
       = (Ok (v, v), st1)
    /\ match data_cache st !! (layer +:+ ":" +:+ object_path) with
       | None =>
           v = doc
           /\ exists bucket_name,
                MinIOClient.buckets layer = Ok bucket_name
                /\ downloads st1
                   = downloads st ++ [(bucket_name, object_path)]
       | Some cached => v = cached /\ st1 = st
       end.
Proof.
  intros (bucket_name & body & Hb & Hg & Hj) Ht.
  destruct (data_cache st !! (layer +:+ ":" +:+ object_path))
    as [cached|] eqn:Hc.
  - pose proof (carregar_dados_hit st _ _ _ Hc) as H1.
    exists cached, st. repeat split; try done.
    unfold CacheSpec.two_fetches. by rewrite run_bind, H1, run_bind, H1.
  - pose proof (carregar_dados_miss st _ _ _ _ _ Hc Hb Hg Hj) as H1.
    rewrite Ht in H1. set (st1 := mkReader _ _ _) in H1.
    assert (H2 : run (DataReader.carregar_dados json_loads client layer
                        object_path true) st1 = (Ok doc, st1)).
    { apply carregar_dados_hit. subst st1. cbn [data_cache].
      apply lookup_insert_eq. }
    exists doc, st1. repeat split; try done.
    + unfold CacheSpec.two_fetches. by rewrite run_bind, H1, run_bind, H2.
    + by exists bucket_name.
Qed.

End CacheFacts.

Lemma cache_idempotent_truthy_witness :
  exists v st1,
    run (DataReader.carregar_dados CacheSamples.json_loads CacheSamples.client
           "landing" "categorias/2024/01/02/um.json" true) new_reader
    = (Ok v, st1)
    /\ run (DataReader.carregar_dados CacheSamples.json_loads
              CacheSamples.client "landing" "categorias/2024/01/02/um.json"
              true) st1
       = (Ok v, st1)
    /\ run (CacheSpec.two_fetches CacheSamples.json_loads CacheSamples.client
              "landing" "categorias/2024/01/02/um.json") new_reader
       = (Ok (v, v), st1)
    /\ match data_cache new_reader
             !! ("landing" +:+ ":" +:+ "categorias/2024/01/02/um.json") with
       | None =>
           v = JList [JInt 1]
           /\ exists bucket_name,
                MinIOClient.buckets "landing" = Ok bucket_name
                /\ downloads st1
                   = downloads new_reader
                     ++ [(bucket_name, "categorias/2024/01/02/um.json")]
       | Some cached => v = cached /\ st1 = new_reader
       end.
Proof.
  apply (cache_idempotent_truthy CacheSamples.json_loads CacheSamples.client
           new_reader "landing" "categorias/2024/01/02/um.json"
           (JList [JInt 1])).
  - exists "reclameaqui-landing", "[1]". repeat split; reflexivity.
  - reflexivity.
Defined.

(** C4 as stated fails on an empty document: [{}] is stored and parses, yet
    it is not cached, and the second call downloads it again. *)
Lemma cache_not_idempotent_on_empty_document :
  ~ CacheSpec.cache_idempotent CacheSamples.json_loads CacheSamples.client
      new_reader "landing" "categorias/2024/01/02/vazio.json".
Proof.
  intros H. destruct (H (JObj [])) as (st' & Hrun & Hlen).
  - exists "reclameaqui-landing", "{}". repeat split; reflexivity.
  - assert (Hst : st' = mkReader ∅ ∅
        [("reclameaqui-landing", "categorias/2024/01/02/vazio.json");
         ("reclameaqui-landing", "categorias/2024/01/02/vazio.json")]).
    { vm_compute in Hrun. by injection Hrun as <-. }
    subst st'. simpl in Hlen. lia.
Qed.

(** ** Decoding *)

Section DecoderFacts.
Context (pandas : Pandas).


Lemma fallback_object fields :
  Decoder.fallback pandas (JObj fields) = Ok (Frame.from_records [fields]).
Proof. reflexivity. Qed.

Lemma from_records_one_row fields :
  length (rows (Frame.from_records [fields])) = 1.
Proof. reflexivity. Qed.

(** X17. A document that is an object is always converted, whatever [tipo]
    is: the detection cannot fail on it, and the handler of the [try]
    builds a frame from it. *)
Lemma converter_total_on_objects fields tipo :
  exists df,
    Decoder.converter_para_dataframe pandas (JObj fields) tipo = Ok df.
Proof.
  unfold Decoder.converter_para_dataframe.
  assert (H : exists t, Decoder.detectar (JObj fields) tipo = Ok t).
  { unfold Decoder.detectar. destruct (String.eqb tipo "auto"); [|eauto].
    cbn. repeat (destruct (bool_decide _); [eauto|]). eauto. }
  destruct H as [t ->]. cbn [rbind]. unfold Py.try_except.
  destruct (Decoder.decode pandas (JObj fields) t); [eauto|].
  rewrite fallback_object. eauto.
Qed.

(** C7, at a list of numbers and at a number: with [tipo='auto'] the
    detection asks [in] of a number, outside the [try], and the [TypeError]
    leaves the function. *)
Theorem converter_auto_raises_on_numbers :
  Decoder.converter_para_dataframe pandas (JList [JInt 1; JInt 2; JInt 3])
    "auto" = Raise TypeError
  /\ Decoder.converter_para_dataframe pandas (JInt 42) "auto"
     = Raise TypeError.
Proof. split; reflexivity. Qed.

(** *** The generic conversion *)

Lemma from_records_length records :
  length (rows (Frame.from_records records)) = length records.
Proof. unfold Frame.from_records. cbn [rows]. apply length_map. Qed.

Lemma as_records_length items records :
  Frame.as_records items = Some records -> length records = length items.
Proof.
  revert records. induction items as [|v items IH]; intros records.
  - by intros [= <-].
  - destruct v; try done. cbn [Frame.as_records].
    destruct (Frame.as_records items) as [rs|]; [|done].
    intros [= <-]. simpl. f_equal. by apply IH.
Qed.

Lemma as_records_no_str k items records :
  Frame.as_records items = Some records ->
  existsb (Py.is_str k) items = false.
Proof.
  revert records. induction items as [|v items IH]; intros records; [done|].
  destruct v; try done. cbn [Frame.as_records].
  destruct (Frame.as_records items) as [rs|]; [|done].
  intros _. simpl. by apply (IH rs).
Qed.

(** X18. With [tipo='auto'], a list of objects whose first item has no
    [company_info] becomes one row per item. *)
Lemma converter_auto_list_of_objects first rest records :
  Frame.as_records (JObj first :: rest) = Some records ->
  Py.dict_get "company_info" first = None ->
  Decoder.converter_para_dataframe pandas (JList (JObj first :: rest)) "auto"
  = Ok (Frame.from_records records)
  /\ length (rows (Frame.from_records records))
     = length (JObj first :: rest).
Proof.
  intros Hrec Hinfo. split.
  - unfold Decoder.converter_para_dataframe, Decoder.detectar.
    cbn [String.eqb Ascii.eqb Bool.eqb Py.contains rbind].
    rewrite !(as_records_no_str _ _ _ Hrec). cbn [rbind].
    rewrite Hinfo. rewrite bool_decide_eq_false_2 by (by intros [? ?]).
    unfold Decoder.decode. cbn [String.eqb Ascii.eqb Bool.eqb].
    unfold Decoder.decode_generico, PandasOps.DataFrame_of.
    by rewrite Hrec.
  - rewrite from_records_length. by apply as_records_length.
Qed.

(** X19. With [tipo='auto'], an object with one key, not [mainSegments]
    nor [companies], over a list of objects becomes the rows of that list,
    one per item. *)
Lemma converter_auto_single_key k items records :
  k <> "mainSegments" -> k <> "companies" ->
  Frame.as_records items = Some records ->
  Decoder.converter_para_dataframe pandas (JObj [(k, JList items)]) "auto"
  = Ok (Frame.from_records records)
  /\ length (rows (Frame.from_records records)) = length items.
Proof.
  intros Hm Hc Hrec. split.
  - unfold Decoder.converter_para_dataframe, Decoder.detectar.
    cbn [String.eqb Ascii.eqb Bool.eqb Py.contains rbind Py.dict_get].
    destruct (String.eqb_spec k "mainSegments") as [?|_]; [done|].
    destruct (String.eqb_spec k "companies") as [?|_]; [done|].
    rewrite !bool_decide_eq_false_2 by (by intros [? ?]).
    cbn [rbind]. unfold Decoder.decode. cbn [String.eqb Ascii.eqb Bool.eqb].
    unfold Decoder.decode_generico, PandasOps.DataFrame_of.
    by rewrite Hrec.
  - rewrite from_records_length. by apply as_records_length.
Qed.

(** X20. With [tipo='auto'], an object with no key or with several keys,
    none of them [mainSegments] or [companies], becomes one row. *)
Lemma converter_auto_other_object fields :
  Py.dict_get "mainSegments" fields = None ->
  Py.dict_get "companies" fields = None ->
  length fields <> 1 ->
  Decoder.converter_para_dataframe pandas (JObj fields) "auto"
  = Ok (Frame.from_records [fields])
  /\ length (rows (Frame.from_records [fields])) = 1.
Proof.
  intros Hm Hc Hlen. split; [|done].
  unfold Decoder.converter_para_dataframe, Decoder.detectar.
  cbn [String.eqb Ascii.eqb Bool.eqb Py.contains rbind].
  rewrite Hm, Hc. rewrite !bool_decide_eq_false_2 by (by intros [? ?]).
  cbn [rbind]. unfold Decoder.decode. cbn [String.eqb Ascii.eqb Bool.eqb].
  unfold Decoder.decode_generico.
  destruct fields as [|[k v] [|kv fields]]; try done.
Qed.

(** *** Taxonomies *)

Lemma has_name_and_title_fields v :
  TaxonomySpec.has_name_and_title v = true ->
  exists fields name title,
    v = JObj fields
    /\ Py.dict_get "shortname" fields = Some name
    /\ Py.dict_get "title" fields = Some title.
Proof.
  unfold TaxonomySpec.has_name_and_title, TaxonomySpec.field.
  destruct v as [| | | | |?|fields]; try done.
  destruct (Py.dict_get "shortname" fields) as [name|] eqn:Hn; [|done].
  destruct (Py.dict_get "title" fields) as [title|] eqn:Ht; [|done].
  intros _. exists fields, name, title. done.
Qed.

Lemma visit_subseg_ok seg subseg categorias :
  TaxonomySpec.has_name_and_title seg = true ->
  TaxonomySpec.has_name_and_title subseg = true ->
  Decoder.visit_subseg seg categorias subseg
  = Ok (categorias ++ [JObj (TaxonomySpec.record_of (seg, subseg))]).
Proof.
  intros (f & n & t & -> & Hn & Ht)%has_name_and_title_fields
         (f' & n' & t' & -> & Hn' & Ht')%has_name_and_title_fields.
  unfold Decoder.visit_subseg, TaxonomySpec.record_of, TaxonomySpec.row_of.
  cbn [Py.getitem Py.get TaxonomySpec.field fst snd].
  rewrite Hn, Ht, Hn', Ht'. cbn [rbind default].
  by destruct (Py.dict_get "icon" f), (Py.dict_get "icon" f').
Qed.

Lemma visit_subsegs_ok seg subsegs categorias :
  TaxonomySpec.has_name_and_title seg = true ->
  forallb TaxonomySpec.has_name_and_title subsegs = true ->
  Py.for_each (Decoder.visit_subseg seg) subsegs categorias
  = Ok (categorias ++
        map (fun c => JObj (TaxonomySpec.record_of (seg, c))) subsegs).
Proof.
  intros Hseg. revert categorias.
  induction subsegs as [|c subsegs IH]; intros categorias Hall; simpl.
  - by rewrite app_nil_r.
  - apply andb_true_iff in Hall as [Hc Hall].
    rewrite (visit_subseg_ok _ _ _ Hseg Hc), (IH _ Hall).
    by rewrite <- app_assoc.
Qed.

Lemma visit_seg_ok seg categorias :
  TaxonomySpec.main_ok seg = true ->
  Decoder.visit_seg categorias seg
  = Ok (categorias ++
        map (fun c => JObj (TaxonomySpec.record_of (seg, c)))
            (default [] (TaxonomySpec.children seg))).
Proof.
  unfold TaxonomySpec.main_ok, Decoder.visit_seg.
  destruct seg as [| | | | |?|fields]; try done.
  unfold TaxonomySpec.children. cbn [Py.get].
  destruct (Py.dict_get "childrenSegments" fields) as [[| | | | |subsegs|?]|];
    try done; cbn [from_option id rbind Py.iter default].
  - destruct subsegs as [|c subsegs]; [by rewrite app_nil_r|].
    intros [Hseg Hall]%andb_true_iff. by apply visit_subsegs_ok.
  - intros _. simpl. by rewrite app_nil_r.
Qed.

Lemma visit_segs_ok segs categorias :
  forallb TaxonomySpec.main_ok segs = true ->
  Py.for_each Decoder.visit_seg segs categorias
  = Ok (categorias ++
        map (fun p => JObj (TaxonomySpec.record_of p))
          (flat_map (fun seg => map (pair seg)
                                 (default [] (TaxonomySpec.children seg)))
                    segs)).
Proof.
  revert categorias.
  induction segs as [|seg segs IH]; intros categorias Hall; simpl.
  - by rewrite app_nil_r.
  - apply andb_true_iff in Hall as [Hseg Hall].
    rewrite (visit_seg_ok _ _ Hseg), (IH _ Hall).
    by rewrite <- app_assoc, map_app, map_map.
Qed.

Lemma as_records_objects {X} (f : X -> list (string * JSON)) l :
  Frame.as_records (map (fun x => JObj (f x)) l) = Some (map f l).
Proof.
  induction l as [|x l IH]; simpl; [done|]. by rewrite IH.
Qed.

Lemma add_keys_record_of seen p :
  seen = [] \/ seen = TaxonomySpec.six_keys ->
  Frame.add_keys seen (TaxonomySpec.record_of p) = TaxonomySpec.six_keys.
Proof.
  unfold TaxonomySpec.record_of, TaxonomySpec.row_of.
  intros [->| ->]; reflexivity.
Qed.

Lemma record_keys_records_of ps seen :
  seen = [] \/ seen = TaxonomySpec.six_keys ->
  fold_left Frame.add_keys (map TaxonomySpec.record_of ps) seen
  = match ps with [] => seen | _ => TaxonomySpec.six_keys end.
Proof.
  revert seen. induction ps as [|p ps IH]; intros seen Hseen; [done|].
  cbn [map fold_left]. rewrite (add_keys_record_of _ _ Hseen).
  rewrite IH by auto. by destruct ps.
Qed.

Lemma from_records_taxonomy ps :
  Frame.from_records (map TaxonomySpec.record_of ps)
  = mkFrame (match ps with [] => [] | _ => TaxonomySpec.six_columns end)
            (map TaxonomySpec.row_of ps).
Proof.
  unfold Frame.from_records, Frame.record_keys.
  rewrite record_keys_records_of by auto.
  destruct ps as [|p ps]; [done|]. f_equal.
  rewrite map_map. apply map_ext. intros q.
  unfold TaxonomySpec.record_of, TaxonomySpec.row_of. reflexivity.
Qed.

Lemma decode_categorias_ok doc :
  TaxonomySpec.taxonomy_ok doc = true ->
  Decoder.decode_categorias pandas doc = Ok (TaxonomySpec.expected_frame doc).
Proof.
  unfold TaxonomySpec.taxonomy_ok, TaxonomySpec.expected_frame,
    TaxonomySpec.pairs, TaxonomySpec.main_segments, TaxonomySpec.field.
  destruct doc as [| | | | |?|fields]; try done.
  unfold Decoder.decode_categorias. cbn [Py.get].
  destruct (Py.dict_get "mainSegments" fields) as [[| | | | |segs|?]|];
    try done.
  intros Hall. cbn [from_option id rbind Py.iter default].
  rewrite (visit_segs_ok _ _ Hall). cbn [rbind app].
  unfold PandasOps.DataFrame_of.
  rewrite as_records_objects. by rewrite from_records_taxonomy.
Qed.

Lemma detectar_taxonomy doc :
  TaxonomySpec.taxonomy_ok doc = true ->
  Decoder.detectar doc "auto" = Ok "categorias".
Proof.
  unfold TaxonomySpec.taxonomy_ok, TaxonomySpec.main_segments,
    TaxonomySpec.field.
  destruct doc as [| | | | |?|fields]; try done.
  unfold Decoder.detectar. cbn.
  destruct (Py.dict_get "mainSegments" fields); [|done]. intros _.
  rewrite bool_decide_eq_true_2 by eauto. done.
Qed.

(** C8, amended.  A well-formed taxonomy document ([mainSegments] is a list
    of objects, each with [childrenSegments] absent or a list; where that
    list is not empty, the main segment and every child are objects with
    [shortname] and [title]), decoded as [categorias] or detected with
    [auto], gives one row for each pair of a main segment and one of its
    children, in document order, under the six columns [main_segment],
    [main_title], [secondary_segment], [secondary_title], [main_icon],
    [secondary_icon], with [None] for an icon that is absent; a main segment
    without children gives no row, and a document without pairs gives the
    frame with no row and no column. *)
Theorem taxonomy_rows (doc : JSON) (tipo : string) :
  TaxonomySpec.taxonomy_ok doc = true ->
  tipo = "auto" \/ tipo = "categorias" ->
  Decoder.converter_para_dataframe pandas doc tipo
  = Ok (TaxonomySpec.expected_frame doc)
  /\ rows (TaxonomySpec.expected_frame doc)
     = map TaxonomySpec.row_of (TaxonomySpec.pairs doc)
  /\ length (rows (TaxonomySpec.expected_frame doc))
     = list_sum (map (fun seg =>
                        length (default [] (TaxonomySpec.children seg)))
                     (default [] (TaxonomySpec.main_segments doc))).
Proof.
  intros Hok Htipo. repeat split.
  - unfold Decoder.converter_para_dataframe.
    assert (Hd : Decoder.detectar doc tipo = Ok "categorias").
    { destruct Htipo as [-> | ->]; [by apply detectar_taxonomy|done]. }
    rewrite Hd. cbn [rbind]. unfold Decoder.decode. cbn [String.eqb].
    change (String.eqb "categorias" "categorias") with true. cbv iota.
    by rewrite (decode_categorias_ok _ Hok).
  - unfold TaxonomySpec.expected_frame. cbn [rows].
    rewrite length_map. unfold TaxonomySpec.pairs.
    induction (default [] (TaxonomySpec.main_segments doc)) as [|seg segs IH];
      [done|].
    cbn [flat_map map list_sum]. by rewrite length_app, length_map, IH.
Qed.

End DecoderFacts.

Lemma taxonomy_rows_witness :
  Decoder.converter_para_dataframe DecoderSamples.records_only
    DecoderSamples.bancos "auto"
  = Ok (mkFrame TaxonomySpec.six_columns
          [[JStr "bancos"; JStr "Bancos"; JStr "cartoes"; JStr "Cartões";
            JNull; JNull]]).
Proof.
  exact (proj1 (taxonomy_rows DecoderSamples.records_only
                  DecoderSamples.bancos "auto" eq_refl (or_introl eq_refl))).
Defined.

(** C8 as stated fails on a document whose main segment has [null] under
    [childrenSegments]: the field [mainSegments] is present and there is no
    (main segment, child segment) pair, yet the loop over the children
    raises, the handler of the [try] answers, and the frame has one row
    under the one column [mainSegments]. *)
Lemma taxonomy_null_children_gives_fallback_row :
  TaxonomyClaim.taxonomy_document TaxonomyClaim.sem_filhos
  /\ TaxonomySpec.pairs TaxonomyClaim.sem_filhos = []
  /\ ~ TaxonomyClaim.one_row_per_pair DecoderSamples.records_only
         TaxonomyClaim.sem_filhos "categorias"
  /\ exists row,
       Decoder.converter_para_dataframe DecoderSamples.records_only
         TaxonomyClaim.sem_filhos "categorias"
       = Ok (mkFrame [LStr "mainSegments"] [row]).
Proof.
  assert (Hrun : exists row,
             Decoder.converter_para_dataframe DecoderSamples.records_only
               TaxonomyClaim.sem_filhos "categorias"
             = Ok (mkFrame [LStr "mainSegments"] [row])).
  { eexists. vm_compute. reflexivity. }
  split; [by eexists|]. split; [reflexivity|]. split; [|exact Hrun].
  destruct Hrun as [row Hrun]. intros (df & Hdf & Hrows).
  rewrite Hrun in Hdf. injection Hdf as <-. discriminate Hrows.
Qed.

(** *** The frame of one document *)






(** ** Aggregation *)

Example segmentos_do_arquivo_ranking :
  DataAnalyzer.segmentos_do_arquivo "ranking_bancos_cartoes_1.json"
  = Some ("bancos", "cartoes").
Proof. reflexivity. Qed.

Section AnalyzerFacts.
Context (pandas : Pandas) (json_loads : string -> result JSON)
        (client : Minio).

(** Without ranking files for a pair, [obter_top_empresas_categoria] returns
    the empty frame and leaves the reader as it was. *)
Lemma obter_top_no_rankings main_seg sec_seg limit st :
  Listing.buscar_arquivos_por_filtro client
    (Listing.mkFiltros (Some "landing") (Some "rankings") None None
       (Some ("ranking_" +:+ main_seg +:+ "_" +:+ sec_seg))) = [] ->
  run (DataAnalyzer.obter_top_empresas_categoria pandas json_loads client
         main_seg sec_seg limit) st
  = (Ok Frame.empty_frame, st).
Proof.
  intros H. unfold DataAnalyzer.obter_top_empresas_categoria.
  rewrite run_bind. unfold Loader.carregar_rankings_categoria.
  rewrite H. reflexivity.
Qed.

Lemma visit_categorias_no_rankings categorias metric st :
  (forall main_seg sec_seg, In (main_seg, sec_seg) categorias ->
     Listing.buscar_arquivos_por_filtro client
       (Listing.mkFiltros (Some "landing") (Some "rankings") None None
          (Some ("ranking_" +:+ main_seg +:+ "_" +:+ sec_seg))) = []) ->
  run (for_each_M (DataAnalyzer.visit_categoria pandas json_loads client
                     metric) categorias []) st
  = (Ok [], st).
Proof.
  induction categorias as [|[main_seg sec_seg] categorias IH]; intros H.
  - reflexivity.
  - cbn [for_each_M]. rewrite run_bind.
    unfold DataAnalyzer.visit_categoria at 1. rewrite run_bind.
    cbn [fst snd]. rewrite obter_top_no_rankings by (apply H; by left).
    cbn [Frame.empty Frame.empty_frame rows negb andb]. rewrite run_ret.
    apply IH. intros m s Hin. apply H. by right.
Qed.

(** When no requested pair has a ranking file, [comparar_categorias] ends in
    the [KeyError] of [sort_values]: the frame of no rows has no column. *)
Lemma comparar_categorias_no_rankings categorias metric st :
  (forall main_seg sec_seg, In (main_seg, sec_seg) categorias ->
     Listing.buscar_arquivos_por_filtro client
       (Listing.mkFiltros (Some "landing") (Some "rankings") None None
          (Some ("ranking_" +:+ main_seg +:+ "_" +:+ sec_seg))) = []) ->
  run (DataAnalyzer.comparar_categorias pandas json_loads client categorias
         metric) st
  = (Raise KeyError, st).
Proof.
  intros H. unfold DataAnalyzer.comparar_categorias.
  rewrite run_bind, (visit_categorias_no_rankings _ _ _ H). reflexivity.
Qed.

(** Without a taxonomy file, [listar_categorias_com_dados] returns the empty
    frame. *)
Lemma listar_categorias_com_dados_no_taxonomy st :
  Listing.buscar_arquivos_por_filtro client
    (Listing.mkFiltros (Some "landing") (Some "categorias") None None None)
  = [] ->
  run (DataAnalyzer.listar_categorias_com_dados pandas json_loads client) st
  = (Ok Frame.empty_frame, st).
Proof.
  intros H. unfold DataAnalyzer.listar_categorias_com_dados.
  rewrite run_bind. unfold Loader.carregar_todas_categorias,
    Loader.carregar_ultima_coleta. rewrite H. reflexivity.
Qed.

(** C9, where every pair is skipped: with no pair requested, and with one
    pair requested from empty buckets, [comparar_categorias] raises the
    [KeyError] of [sort_values] in place of returning an empty frame. *)
Theorem comparar_categorias_raises_when_all_skipped (metric : string)
    (st : Reader) :
  run (DataAnalyzer.comparar_categorias pandas json_loads client [] metric) st
  = (Raise KeyError, st)
  /\ run (DataAnalyzer.comparar_categorias pandas json_loads
            Samples.empty_client [("bancos", "cartoes")] metric) st
     = (Raise KeyError, st).
Proof. split; reflexivity. Qed.

End AnalyzerFacts.

(* ================================================================== *)
(** * Further properties of the listing *)

Lemma decode_path lay key a : Codec.decode lay key = Some a -> path a = key.
Proof.
  unfold Codec.decode. destruct (Nat.leb _ _); [|done]. by intros [= <-].
Qed.

(** X1. Every entry of every listing has the shape of its key, and its
    layer is one of the layers the call visits. *)
Theorem listing_entries_shaped (client : Minio) (lay cat : option string) :
  Forall (fun a => ListingMore.entry_shape a
                   /\ In (layer a) (ListingSpec.requested_layers lay))
         (Listing.listar_arquivos_disponiveis client lay cat).
Proof.
  unfold Listing.listar_arquivos_disponiveis.
  rewrite list_sort_perm, gather_spec. unfold ListingSpec.adapter_order.
  apply Forall_flat_map, Forall_forall. intros l Hl.
  unfold ListingSpec.entries_of_layer.
  destruct (MinIOClient.list_objects client l cat) as [objects|];
    [|constructor].
  apply Forall_forall. intros a [o [_ Ho]]%list_elem_of_omap. split.
  - destruct (decode_fields _ _ _ Ho) as (c & y & m & d & rest & H).
    exists c, y, m, d, rest. by rewrite (decode_path _ _ _ Ho).
  - rewrite (decode_layer _ _ _ Ho). by apply list_elem_of_In.
Qed.

(** X2. A layer that is not one of the three buckets lists as empty: the
    [KeyError] of the bucket lookup is swallowed. *)
Theorem listing_unknown_layer_empty (client : Minio) (l : string)
    (cat : option string) :
  l <> "" -> ~ In l Listing.all_layers ->
  Listing.listar_arquivos_disponiveis client (Some l) cat = [].
Proof.
  intros Hne Hl. unfold Listing.listar_arquivos_disponiveis.
  rewrite gather_spec. unfold ListingSpec.adapter_order,
    ListingSpec.requested_layers.
  destruct l as [|c l]; [done|]. cbn [truthy_str from_option id flat_map].
  unfold ListingSpec.entries_of_layer, MinIOClient.list_objects,
    MinIOClient.buckets.
  destruct (String.eqb_spec (String c l) "landing") as [E|_];
    [exfalso; apply Hl; rewrite E; simpl; tauto|].
  destruct (String.eqb_spec (String c l) "raw") as [E|_];
    [exfalso; apply Hl; rewrite E; simpl; tauto|].
  destruct (String.eqb_spec (String c l) "trusted") as [E|_];
    [exfalso; apply Hl; rewrite E; simpl; tauto|].
  reflexivity.
Qed.

Lemma listing_unknown_layer_empty_witness :
  Listing.listar_arquivos_disponiveis Samples.empty_raw_client
    (Some "bronze") None = [].
Proof.
  apply (listing_unknown_layer_empty Samples.empty_raw_client "bronze" None).
  - done.
  - simpl. intros [H|[H|[H|[]]]]; discriminate H.
Defined.

(** *** Selecting and sorting commute *)

Section SortMore.
Context {A : Type} (key : A -> string).

Lemma filter_sorted (R : A -> A -> Prop) (f : A -> bool) l :
  StronglySorted R l -> StronglySorted R (List.filter f l).
Proof.
  induction 1 as [|x l Hl IH Hx]; simpl; [constructor|].
  destruct (f x); [|done]. constructor; [done|].
  rewrite Forall_forall in *. intros y Hy.
  apply list_elem_of_In, filter_In in Hy as [Hy _].
  by apply Hx, list_elem_of_In.
Qed.

Lemma filter_comm (f g : A -> bool) l :
  List.filter f (List.filter g l) = List.filter g (List.filter f l).
Proof.
  induction l as [|x l IH]; simpl; [done|].
  destruct (f x) eqn:Ef, (g x) eqn:Eg; simpl; rewrite ?Ef, ?Eg, IH; done.
Qed.

(** Selecting from a list sorted with [reverse=True] gives the selection,
    sorted. *)
Lemma filter_list_sort_reverse (f : A -> bool) l :
  List.filter f (PySort.list_sort key true l)
  = PySort.list_sort key true (List.filter f l).
Proof.
  apply list_sort_reverse_unique.
  - apply filter_sorted, list_sort_reverse_sorted.
  - intros k. by rewrite filter_comm, list_sort_stable, filter_comm.
Qed.

(** Sorting lists that are already sorted, one after the other, is sorting
    what they were made from. *)
Lemma list_sort_reverse_app3 (l1 l2 l3 : list A) :
  PySort.list_sort key true (l1 ++ l2 ++ l3)
  = PySort.list_sort key true
      (PySort.list_sort key true l1 ++ PySort.list_sort key true l2
       ++ PySort.list_sort key true l3).
Proof.
  apply list_sort_reverse_unique.
  - apply list_sort_reverse_sorted.
  - intros k. rewrite list_sort_stable.
    by rewrite !List.filter_app, !list_sort_stable.
Qed.

End SortMore.

Lemma filter_none {X} (f : X -> bool) (l : list X) :
  Forall (fun x => f x = false) l -> List.filter f l = [].
Proof.
  induction 1 as [|x l Hx _ IH]; simpl; [done|]. by rewrite Hx.
Qed.

Lemma filter_all_in {X} (f : X -> bool) (l : list X) :
  Forall (fun x => f x = true) l -> List.filter f l = l.
Proof.
  induction 1 as [|x l Hx _ IH]; simpl; [done|]. by rewrite Hx, IH.
Qed.

Lemma passa_so_layer l a :
  Listing.passa (ListingMore.so_layer l) a = String.eqb (layer a) l.
Proof.
  unfold Listing.passa, ListingMore.so_layer. simpl.
  by destruct (String.eqb (layer a) l).
Qed.

Lemma filter_layer_entries client cat l l' :
  List.filter (fun a => String.eqb (layer a) l)
    (ListingSpec.entries_of_layer client cat l')
  = if String.eqb l' l then ListingSpec.entries_of_layer client cat l' else [].
Proof.
  pose proof (entries_of_layer_layer client cat l') as H.
  destruct (String.eqb_spec l' l) as [->|Hne].
  - apply filter_all_in. eapply Forall_impl; [exact H|].
    simpl. intros a ->. apply String.eqb_refl.
  - apply filter_none. eapply Forall_impl; [exact H|].
    simpl. intros a ->. by apply String.eqb_neq.
Qed.

Lemma entries_unknown_layer client cat l :
  ~ In l Listing.all_layers -> ListingSpec.entries_of_layer client cat l = [].
Proof.
  intros Hl. unfold ListingSpec.entries_of_layer, MinIOClient.list_objects,
    MinIOClient.buckets.
  destruct (String.eqb_spec l "landing") as [E|_];
    [exfalso; apply Hl; rewrite E; simpl; tauto|].
  destruct (String.eqb_spec l "raw") as [E|_];
    [exfalso; apply Hl; rewrite E; simpl; tauto|].
  destruct (String.eqb_spec l "trusted") as [E|_];
    [exfalso; apply Hl; rewrite E; simpl; tauto|].
  reflexivity.
Qed.

(** X3. Filtering the full listing by a layer gives what listing that layer
    alone gives, for every layer name but the empty one (which
    [listar_arquivos_disponiveis] takes for "all layers"). *)
Theorem buscar_layer_is_listar_layer (client : Minio) (l : string) :
  l <> "" ->
  Listing.buscar_arquivos_por_filtro client (ListingMore.so_layer l)
  = Listing.listar_arquivos_disponiveis client (Some l) None.
Proof.
  intros Hne. rewrite buscar_spec.
  rewrite (filter_ext _ (fun a => String.eqb (layer a) l))
    by (intros a; apply passa_so_layer).
  unfold Listing.listar_arquivos_disponiveis. rewrite !gather_spec.
  rewrite filter_list_sort_reverse. f_equal.
  unfold ListingSpec.adapter_order, ListingSpec.requested_layers.
  destruct l as [|c l]; [done|].
  cbn [truthy_str from_option id flat_map Listing.all_layers].
  rewrite !app_nil_r, !List.filter_app, !filter_layer_entries.
  destruct (String.eqb_spec "landing" (String c l)) as [<-|H1];
    [by rewrite app_nil_r|].
  destruct (String.eqb_spec "raw" (String c l)) as [<-|H2];
    [by rewrite app_nil_r|].
  destruct (String.eqb_spec "trusted" (String c l)) as [<-|H3]; [done|].
  symmetry. apply entries_unknown_layer. simpl. intuition congruence.
Qed.

Lemma buscar_layer_is_listar_layer_witness :
  Listing.buscar_arquivos_por_filtro Samples.empty_raw_client
    (ListingMore.so_layer "trusted")
  = Listing.listar_arquivos_disponiveis Samples.empty_raw_client
      (Some "trusted") None.
Proof.
  apply (buscar_layer_is_listar_layer Samples.empty_raw_client "trusted").
  done.
Defined.

(** X4. The listing of all layers is the three listings of one layer, one
    after the other, sorted again: entries of one date come landing first,
    then raw, then trusted. *)
Theorem listing_all_layers_merges (client : Minio) (cat : option string) :
  Listing.listar_arquivos_disponiveis client None cat
  = PySort.list_sort date true
      (Listing.listar_arquivos_disponiveis client (Some "landing") cat
       ++ Listing.listar_arquivos_disponiveis client (Some "raw") cat
       ++ Listing.listar_arquivos_disponiveis client (Some "trusted") cat).
Proof.
  unfold Listing.listar_arquivos_disponiveis. rewrite !gather_spec.
  unfold ListingSpec.adapter_order, ListingSpec.requested_layers.
  cbn [truthy_str from_option id flat_map Listing.all_layers].
  rewrite !app_nil_r. apply list_sort_reverse_app3.
Qed.

(** X5. A date range whose start is after its end selects nothing, whatever
    the other predicates. *)
Theorem buscar_inverted_range_empty (client : Minio)
    (fl fc fn : option string) (inicio fim : string) :
  String.ltb fim inicio = true ->
  Listing.buscar_arquivos_por_filtro client
    (Listing.mkFiltros fl fc (Some inicio) (Some fim) fn) = [].
Proof.
  intros Hlt. rewrite buscar_spec. apply filter_none, Forall_forall.
  intros a _. rewrite passa_conj. cbn [Listing.f_data_inicio
    Listing.f_data_fim from_option].
  destruct (String.leb inicio (date a)) eqn:E1;
    [|by rewrite andb_false_r].
  destruct (String.leb (date a) fim) eqn:E2;
    [|by rewrite andb_false_r, andb_false_l].
  rewrite ltb_leb, (leb_trans _ _ _ E1 E2) in Hlt. done.
Qed.

Lemma buscar_inverted_range_empty_witness :
  Listing.buscar_arquivos_por_filtro Samples.empty_raw_client
    (Listing.mkFiltros None None (Some "2024/02/01") (Some "2024/01/01")
       None) = [].
Proof.
  apply (buscar_inverted_range_empty Samples.empty_raw_client None None None
           "2024/02/01" "2024/01/01").
  reflexivity.
Defined.

(** X6. The filter of [carregar_rankings_categoria] is a search for a part
    of the name: asked for the pair [(main, sec)], it also returns the
    ranking files the collector uploaded for every pair [(main, sec ++
    extra)]. *)
Theorem ranking_filter_matches_longer_names (client : Minio)
    (main_seg sec_seg extra pagina : string) (a : DataFile) :
  In a (Listing.listar_arquivos_disponiveis client None None) ->
  layer a = "landing" -> category a = "rankings" ->
  filename a = Pipeline.ranking_filename main_seg (sec_seg +:+ extra) pagina ->
  In a (Listing.buscar_arquivos_por_filtro client
          (ListingMore.filtro_ranking main_seg sec_seg "landing")).
Proof.
  intros Hin Hl Hc Hf. rewrite buscar_spec. apply filter_In. split; [done|].
  apply passa_iff. unfold ListingSpec.satisfaz, ListingMore.filtro_ranking.
  cbn [Listing.f_layer Listing.f_category Listing.f_data_inicio
       Listing.f_data_fim Listing.f_filename_contains].
  repeat split; try (by intros ? [= <-]); try done.
  intros t [= <-]. rewrite Hf. unfold Pipeline.ranking_filename.
  exists "", (extra +:+ "_" +:+ pagina +:+ ".json").
  change ("" +:+ ?x) with x. by rewrite !append_assoc.
Qed.

Lemma ranking_filter_matches_longer_names_witness :
  In (mkDataFile "rankings/2024/01/10/ranking_a_b_1.json" "landing"
        "rankings" "ranking_a_b_1.json" "2024/01/10")
     (Listing.buscar_arquivos_por_filtro Samples.empty_raw_client
        (ListingMore.filtro_ranking "a" "" "landing")).
Proof.
  apply (ranking_filter_matches_longer_names Samples.empty_raw_client
           "a" "" "b" "1").
  - vm_compute. tauto.
  - reflexivity.
  - reflexivity.
  - reflexivity.
Defined.

(* ================================================================== *)
(** * Further properties of the cache and the loaders *)

Lemma append_inv_head (a b c : string) : a +:+ b = a +:+ c -> b = c.
Proof.
  induction a as [|x a IH]; [done|]. rewrite !append_cons.
  intros [= H]. by apply IH.
Qed.

(** The keys of the cache tell the (layer, path) pairs of the three layers
    apart. *)
Lemma cache_key_injective l1 p1 l2 p2 :
  In l1 Listing.all_layers -> In l2 Listing.all_layers ->
  l1 +:+ ":" +:+ p1 = l2 +:+ ":" +:+ p2 -> l1 = l2 /\ p1 = p2.
Proof.
  simpl. intros [<-|[<-|[<-|[]]]] [<-|[<-|[<-|[]]]] H;
    try (by vm_compute in H);
    split; try done; by apply append_inv_head, append_inv_head in H.
Qed.

Section CacheMore.
Context (json_loads : string -> result JSON) (client : Minio).

(** A call leaves every other key of the cache as it was. *)
Lemma carregar_dados_frame st layer object_path use_cache key :
  key <> layer +:+ ":" +:+ object_path ->
  data_cache
    (snd (run (DataReader.carregar_dados json_loads client layer object_path
                 use_cache) st)) !! key
  = data_cache st !! key.
Proof.
  intros Hkey. unfold DataReader.carregar_dados. rewrite run_bind.
  cbn [run get_cache].
  destruct (if use_cache then _ else _) as [cached|]; [done|].
  rewrite run_bind.
  unfold DataReader.download_json, except_S3Error, bind, lift, log_download,
    set_cache, ret.
  cbn [run].
  destruct (MinIOClient.buckets layer) as [b|[]]; cbn [snd data_cache run];
    try done;
  destruct (client_get_object client b object_path) as [body|[]];
    cbn [snd data_cache run]; try done;
  destruct (json_loads body) as [doc|[]]; cbn [snd data_cache run]; try done;
  destruct (truthy _ && use_cache); cbn [snd data_cache run]; try done;
  by rewrite lookup_insert_ne.
Qed.

(** X8. Loading one object never changes what is cached for another object
    of the three layers. *)
Theorem carregar_dados_keeps_other_entries (st : Reader)
    (l1 p1 l2 p2 : string) (use_cache : bool) :
  In l1 Listing.all_layers -> In l2 Listing.all_layers ->
  (l1, p1) <> (l2, p2) ->
  data_cache
    (snd (run (DataReader.carregar_dados json_loads client l1 p1 use_cache)
            st)) !! (l2 +:+ ":" +:+ p2)
  = data_cache st !! (l2 +:+ ":" +:+ p2).
Proof.
  intros H1 H2 Hne. apply carregar_dados_frame. intros Hk.
  destruct (cache_key_injective _ _ _ _ H2 H1 Hk) as [-> ->]. done.
Qed.

(** X9. After [limpar_cache] a load goes to the store again, whatever was
    cached before. *)
Theorem limpar_cache_forces_download (st : Reader)
    (layer object_path bucket_name body : string) (doc : JSON) :
  MinIOClient.buckets layer = Ok bucket_name ->
  client_get_object client bucket_name object_path = Ok body ->
  json_loads body = Ok doc ->
  run (let! _ := DataReader.limpar_cache in
       DataReader.carregar_dados json_loads client layer object_path true) st
  = (Ok doc,
     mkReader (if truthy doc
               then <[layer +:+ ":" +:+ object_path := doc]> ∅ else ∅)
              ∅ (downloads st ++ [(bucket_name, object_path)])).
Proof.
  intros Hb Hg Hj. rewrite run_bind. cbn [run DataReader.limpar_cache].
  by rewrite (carregar_dados_miss json_loads client _ _ _ _ _ _
                (lookup_empty _) Hb Hg Hj).
Qed.

End CacheMore.

Lemma carregar_dados_keeps_other_entries_witness :
  data_cache
    (snd (run (DataReader.carregar_dados CacheSamples.json_loads
                 CacheSamples.client "landing"
                 "categorias/2024/01/02/um.json" true) new_reader))
    !! ("raw" +:+ ":" +:+ "categorias/2024/01/02/um.json")
  = data_cache new_reader !! ("raw" +:+ ":" +:+ "categorias/2024/01/02/um.json").
Proof.
  apply (carregar_dados_keeps_other_entries CacheSamples.json_loads
           CacheSamples.client new_reader "landing"
           "categorias/2024/01/02/um.json" "raw"
           "categorias/2024/01/02/um.json" true).
  - simpl. tauto.
  - simpl. tauto.
  - discriminate.
Defined.

Lemma limpar_cache_forces_download_witness :
  run (let! _ := DataReader.limpar_cache in
       DataReader.carregar_dados CacheSamples.json_loads CacheSamples.client
         "landing" "categorias/2024/01/02/um.json" true) new_reader
  = (Ok (JList [JInt 1]),
     mkReader (<["landing" +:+ ":" +:+ "categorias/2024/01/02/um.json"
                 := JList [JInt 1]]> ∅)
              ∅ [("reclameaqui-landing", "categorias/2024/01/02/um.json")]).
Proof.
  exact (limpar_cache_forces_download CacheSamples.json_loads
           CacheSamples.client new_reader "landing"
           "categorias/2024/01/02/um.json" "reclameaqui-landing" "[1]"
           (JList [JInt 1]) eq_refl eq_refl eq_refl).
Defined.

(** *** The first match is the most recent *)

Lemma buscar_sorted client filtros :
  StronglySorted (key_ge date)
    (Listing.buscar_arquivos_por_filtro client filtros).
Proof.
  rewrite buscar_spec. apply filter_sorted.
  unfold Listing.listar_arquivos_disponiveis. apply list_sort_reverse_sorted.
Qed.

Lemma buscar_head client filtros a rest :
  Listing.buscar_arquivos_por_filtro client filtros = a :: rest ->
  ListingSpec.satisfaz filtros a
  /\ Forall (fun b => String.leb (date b) (date a) = true) rest.
Proof.
  intros H. split.
  - apply passa_iff.
    assert (Hin : In a (Listing.buscar_arquivos_por_filtro client filtros))
      by (rewrite H; by left).
    rewrite buscar_spec in Hin. by apply filter_In in Hin as [_ ?].
  - pose proof (buscar_sorted client filtros) as Hs. rewrite H in Hs.
    by apply StronglySorted_cons in Hs as [? _].
Qed.

Section LoaderFacts.
Context (json_loads : string -> result JSON) (client : Minio).

(** X10. [carregar_ultima_coleta] returns [None] without touching the
    store when no file of the category is listed in the layer; else it
    loads, through the cache, the first listed file of that layer and
    category, and no other such file has a later date. *)
Theorem ultima_coleta_is_most_recent (cat lay : string) (st : Reader) :
  match Listing.buscar_arquivos_por_filtro client
          (Listing.mkFiltros (Some lay) (Some cat) None None None) with
  | [] =>
      run (Loader.carregar_ultima_coleta json_loads client cat lay) st
      = (Ok JNull, st)
  | a :: rest =>
      run (Loader.carregar_ultima_coleta json_loads client cat lay) st
      = run (DataReader.carregar_dados json_loads client lay (path a) true) st
      /\ layer a = lay /\ category a = cat
      /\ Forall (fun b => String.leb (date b) (date a) = true) rest
  end.
Proof.
  unfold Loader.carregar_ultima_coleta.
  destruct (Listing.buscar_arquivos_por_filtro client _) as [|a rest] eqn:E;
    [done|].
  destruct (buscar_head _ _ _ _ E) as [(Hl & Hc & _) Hrest].
  repeat split; [by apply Hl|by apply Hc|done].
Qed.

(** X11. [carregar_dados_empresa] does the same for the files of category
    [empresas] whose name holds [empresa_<shortname>]: it loads the one
    listed first, which none of the others is later than. *)
Theorem dados_empresa_is_most_recent_match (shortname lay : string)
    (st : Reader) :
  match Listing.buscar_arquivos_por_filtro client
          (LoaderMore.filtro_empresa shortname lay) with
  | [] =>
      run (LoaderMore.carregar_dados_empresa json_loads client shortname lay)
        st = (Ok JNull, st)
  | a :: rest =>
      run (LoaderMore.carregar_dados_empresa json_loads client shortname lay)
        st
      = run (DataReader.carregar_dados json_loads client lay (path a) true) st
      /\ category a = "empresas"
      /\ ListingSpec.substring ("empresa_" +:+ shortname) (filename a)
      /\ Forall (fun b => String.leb (date b) (date a) = true) rest
  end.
Proof.
  unfold LoaderMore.carregar_dados_empresa.
  destruct (Listing.buscar_arquivos_por_filtro client _) as [|a rest] eqn:E;
    [done|].
  destruct (buscar_head _ _ _ _ E) as [(_ & Hc & _ & _ & Hn) Hrest].
  repeat split; [by apply Hc|by apply Hn|done].
Qed.

End LoaderFacts.

(** *** Loading the files of a pair or of a company *)

Lemma sublist_forall {X} (P : X -> Prop) (l1 l2 : list X) :
  sublist l1 l2 -> Forall P l2 -> Forall P l1.
Proof.
  induction 1 as [|x l1 l2 _ IH|x l1 l2 _ IH]; intros H; [done| |].
  - apply Forall_cons in H as [? ?]. constructor; auto.
  - apply Forall_cons in H as [? ?]. auto.
Qed.

Lemma sublist_sorted {X} (R : X -> X -> Prop) (l1 l2 : list X) :
  sublist l1 l2 -> StronglySorted R l2 -> StronglySorted R l1.
Proof.
  induction 1 as [|x l1 l2 Hs IH|x l1 l2 _ IH]; intros H; [done| |].
  - apply StronglySorted_cons in H as [Hx H]. constructor; [auto|].
    by apply (sublist_forall _ _ _ Hs).
  - apply StronglySorted_cons in H as [_ H]. auto.
Qed.

Lemma map_sorted {X Y} (f : X -> Y) (R : Y -> Y -> Prop) (l : list X) :
  StronglySorted (fun a b => R (f a) (f b)) l -> StronglySorted R (map f l).
Proof.
  induction 1 as [|x l _ IH Hx]; simpl; constructor; [done|].
  by apply Forall_map.
Qed.

Section LoadLoop.
Context (json_loads : string -> result JSON) (client : Minio).
Context {R : Type} (make : DataFile -> JSON -> R).

(** The loop shared by [carregar_rankings_categoria] and
    [carregar_reclamacoes_empresa]: load each file, keep the documents that
    are true as a condition.  When it ends without an exception, what it
    added comes from a sub-list of the files, in their order. *)
Lemma load_loop_kept (lay : string) (arquivos : list DataFile) :
  forall (acc out : list R) (st st' : Reader),
  run (for_each_M
         (fun resultados arquivo =>
            let! dados :=
              DataReader.carregar_dados json_loads client lay (path arquivo)
                true in
            if truthy dados then ret (resultados ++ [make arquivo dados])
            else ret resultados)
         arquivos acc) st = (Ok out, st') ->
  exists kept : list (DataFile * JSON),
    out = acc ++ map (fun p => make (fst p) (snd p)) kept
    /\ sublist (map fst kept) arquivos
    /\ Forall (fun p => truthy (snd p) = true) kept.
Proof.
  induction arquivos as [|a arquivos IH]; intros acc out st st' Hrun.
  - cbn in Hrun. injection Hrun as <- _. exists []. simpl.
    rewrite app_nil_r. repeat split; constructor.
  - cbn [for_each_M] in Hrun. rewrite run_bind, run_bind in Hrun.
    destruct (run (DataReader.carregar_dados json_loads client lay (path a)
                     true) st) as [[d|e] st1]; [|done].
    destruct (truthy d) eqn:Ht; rewrite run_ret in Hrun.
    + destruct (IH _ _ _ _ Hrun) as (kept & -> & Hsub & Hall).
      exists ((a, d) :: kept). simpl. rewrite <- app_assoc.
      repeat split; [by constructor|by constructor].
    + destruct (IH _ _ _ _ Hrun) as (kept & -> & Hsub & Hall).
      exists kept. repeat split; [by constructor|done].
Qed.

End LoadLoop.

Lemma sorted_map_inv {X Y} (f : X -> Y) (R : Y -> Y -> Prop) (l : list X) :
  StronglySorted R (map f l) -> StronglySorted (fun a b => R (f a) (f b)) l.
Proof.
  induction l as [|x l IH]; simpl; intros H; [constructor|].
  apply StronglySorted_cons in H as [Hx H]. constructor; [auto|].
  rewrite Forall_forall in Hx. apply Forall_forall. intros y Hy.
  apply Hx. apply list_elem_of_In, in_map, list_elem_of_In, Hy.
Qed.

Lemma buscar_all_satisfy client filtros :
  Forall (ListingSpec.satisfaz filtros)
    (Listing.buscar_arquivos_por_filtro client filtros).
Proof.
  rewrite buscar_spec. apply Forall_forall. intros a Ha.
  apply list_elem_of_In, filter_In in Ha as [_ Ha]. by apply passa_iff.
Qed.

Section LoadedLists.
Context (json_loads : string -> result JSON) (client : Minio).

(** X12. When [carregar_rankings_categoria] returns, every item holds a
    document that is true as a condition and comes from a file whose name
    holds [ranking_<main>_<sec>]; the items are in the order of the listing,
    latest collection first, so the first item is the latest; and there are
    no more items than matching files. *)
Theorem rankings_loaded_latest_first (main_seg sec_seg lay : string)
    (st st' : Reader) (rankings : list Ranking) :
  run (Loader.carregar_rankings_categoria json_loads client main_seg sec_seg
         lay) st = (Ok rankings, st') ->
  Forall (fun r => truthy (dados r) = true
                   /\ ListingSpec.substring
                        ("ranking_" +:+ main_seg +:+ "_" +:+ sec_seg)
                        (arquivo r)) rankings
  /\ StronglySorted
       (fun r1 r2 => String.leb (data_coleta r2) (data_coleta r1) = true)
       rankings
  /\ length rankings
     <= length (Listing.buscar_arquivos_por_filtro client
                  (ListingMore.filtro_ranking main_seg sec_seg lay)).
Proof.
  intros Hrun. unfold Loader.carregar_rankings_categoria in Hrun.
  apply (load_loop_kept json_loads client
           (fun a d => mkRanking (date a) (filename a) d)) in Hrun
    as (kept & -> & Hsub & Htruthy).
  fold (ListingMore.filtro_ranking main_seg sec_seg lay) in Hsub.
  cbn [app]. repeat split.
  - apply Forall_map, Forall_forall. intros p Hp. cbn [dados arquivo]. split.
    + rewrite Forall_forall in Htruthy. by apply Htruthy.
    + pose proof (sublist_forall _ _ _ Hsub (buscar_all_satisfy _ _)) as Hs.
      rewrite Forall_forall in Hs.
      destruct (Hs (fst p)) as (_ & _ & _ & _ & Hn);
        [by apply list_elem_of_In, in_map, list_elem_of_In|].
      by apply Hn.
  - apply map_sorted. cbn [data_coleta].
    apply (sorted_map_inv fst (key_ge date)).
    eapply sublist_sorted; [exact Hsub|apply buscar_sorted].
  - rewrite length_map, <- (length_map fst). by apply sublist_length.
Qed.

(** X13. When [carregar_reclamacoes_empresa] returns, every item holds a
    document that is true as a condition, the items are in the order of the
    listing, latest collection first, their [tipo] is [avaliadas] or
    [todas], and there are no more items than matching files. *)
Theorem reclamacoes_loaded_latest_first (company_id lay : string)
    (st st' : Reader) (reclamacoes : list Reclamacao) :
  run (LoaderMore.carregar_reclamacoes_empresa json_loads client company_id
         lay) st = (Ok reclamacoes, st') ->
  Forall (fun r => truthy (rc_dados r) = true
                   /\ (rc_tipo r = "avaliadas" \/ rc_tipo r = "todas"))
         reclamacoes
  /\ StronglySorted
       (fun r1 r2 => String.leb (rc_data_coleta r2) (rc_data_coleta r1) = true)
       reclamacoes
  /\ length reclamacoes
     <= length (Listing.buscar_arquivos_por_filtro client
                  (LoaderMore.filtro_reclamacoes company_id lay)).
Proof.
  intros Hrun. unfold LoaderMore.carregar_reclamacoes_empresa in Hrun.
  apply (load_loop_kept json_loads client
           (fun a d => mkReclamacao (date a)
                         (if PyStr.contains "avaliadas" (filename a)
                          then "avaliadas" else "todas") d)) in Hrun
    as (kept & -> & Hsub & Htruthy).
  cbn [app]. repeat split.
  - apply Forall_map, Forall_forall. intros p Hp. cbn [rc_dados rc_tipo].
    split.
    + rewrite Forall_forall in Htruthy. by apply Htruthy.
    + destruct (PyStr.contains "avaliadas" (filename (fst p))); auto.
  - apply map_sorted. cbn [rc_data_coleta].
    apply (sorted_map_inv fst (key_ge date)).
    eapply sublist_sorted; [exact Hsub|apply buscar_sorted].
  - rewrite length_map, <- (length_map fst). by apply sublist_length.
Qed.

End LoadedLists.

Lemma rankings_loaded_latest_first_witness :
  let rankings :=
    [mkRanking "2024/01/12" "ranking_a_b_2.json" (JList [JInt 1]);
     mkRanking "2024/01/10" "ranking_a_b_1.json" (JList [JInt 1])] in
  Forall (fun r => truthy (dados r) = true
                   /\ ListingSpec.substring ("ranking_" +:+ "a" +:+ "_" +:+ "b")
                        (arquivo r)) rankings
  /\ StronglySorted
       (fun r1 r2 => String.leb (data_coleta r2) (data_coleta r1) = true)
       rankings
  /\ length rankings
     <= length (Listing.buscar_arquivos_por_filtro LoaderSamples.client
                  (ListingMore.filtro_ranking "a" "b" "landing")).
Proof.
  apply (rankings_loaded_latest_first CacheSamples.json_loads
           LoaderSamples.client "a" "b" "landing" new_reader
           (snd (run (Loader.carregar_rankings_categoria
                        CacheSamples.json_loads LoaderSamples.client
                        "a" "b" "landing") new_reader))).
  vm_compute. reflexivity.
Defined.

Lemma reclamacoes_loaded_latest_first_witness :
  let reclamacoes :=
    [mkReclamacao "2024/01/11" "avaliadas" (JList [JInt 1]);
     mkReclamacao "2024/01/10" "todas" (JList [JInt 1])] in
  Forall (fun r => truthy (rc_dados r) = true
                   /\ (rc_tipo r = "avaliadas" \/ rc_tipo r = "todas"))
         reclamacoes
  /\ StronglySorted
       (fun r1 r2 => String.leb (rc_data_coleta r2) (rc_data_coleta r1) = true)
       reclamacoes
  /\ length reclamacoes
     <= length (Listing.buscar_arquivos_por_filtro LoaderSamples.client
                  (LoaderMore.filtro_reclamacoes "77" "landing")).
Proof.
  apply (reclamacoes_loaded_latest_first CacheSamples.json_loads
           LoaderSamples.client "77" "landing" new_reader
           (snd (run (LoaderMore.carregar_reclamacoes_empresa
                        CacheSamples.json_loads LoaderSamples.client
                        "77" "landing") new_reader))).
  vm_compute. reflexivity.
Defined.

(* ================================================================== *)
(** * The report *)

Lemma conta_lookup k k' (d : gmap string nat) :
  Report.conta k' d !! k
  = if decide (k = k') then Some (default 0 (d !! k) + 1) else d !! k.
Proof.
  unfold Report.conta. destruct (decide (k = k')) as [->|Hne].
  - rewrite lookup_insert_eq. destruct (d !! k') eqn:E; [by rewrite E|].
    by rewrite lookup_insert_eq.
  - rewrite lookup_insert_ne by done. destruct (d !! k'); [done|].
    by rewrite lookup_insert_ne.
Qed.

Lemma conta_fold (field : DataFile -> string) k arquivos
    (d : gmap string nat) :
  fold_left (fun d a => Report.conta (field a) d) arquivos d !! k
  = match Report.ocorrencias field k arquivos with
    | O => d !! k
    | S n => Some (default 0 (d !! k) + S n)
    end.
Proof.
  unfold Report.ocorrencias. revert d.
  induction arquivos as [|a arquivos IH]; intros d; [done|].
  cbn [fold_left List.filter]. rewrite IH, conta_lookup.
  destruct (String.eqb_spec (field a) k) as [E|E].
  - rewrite decide_True by done. cbn [length default from_option id].
    destruct (length _); f_equal; lia.
  - by rewrite decide_False by done.
Qed.

Lemma visit_fold arquivos counts :
  fold_left Report.visit arquivos counts
  = (fold_left (fun d a => Report.conta (layer a) d) arquivos (fst counts),
     fold_left (fun d a => Report.conta (category a) d) arquivos (snd counts)).
Proof.
  revert counts. induction arquivos as [|a arquivos IH]; intros [c1 c2];
    [done|].
  cbn [fold_left]. by rewrite IH.
Qed.

(** X14. The report counts every entry once: [total_arquivos] is the length
    of the listing, and a layer or a category is a key of its dict exactly
    when an entry has it, with the number of such entries as the value. *)
Theorem report_counts (client : Minio) (k : string) :
  let arquivos := Listing.listar_arquivos_disponiveis client None None in
  let relatorio := Report.gerar_relatorio_dados client in
  total_arquivos relatorio = length arquivos
  /\ por_camada relatorio !! k
     = Report.contagem (Report.ocorrencias layer k arquivos)
  /\ por_categoria relatorio !! k
     = Report.contagem (Report.ocorrencias category k arquivos).
Proof.
  cbv zeta. unfold Report.gerar_relatorio_dados.
  cbn [total_arquivos por_camada por_categoria]. rewrite visit_fold.
  cbn [fst snd]. rewrite !conta_fold, !lookup_empty. repeat split.
  - by destruct (Report.ocorrencias layer k _).
  - by destruct (Report.ocorrencias category k _).
Qed.

Lemma max_of_descending (d : string) (rest : list string) :
  Forall (fun x => String.leb x d = true) rest ->
  fold_left (fun acc x => if PyStr.gt x acc then x else acc) rest d = d.
Proof.
  induction 1 as [|x rest Hx _ IH]; [done|]. cbn [fold_left].
  unfold PyStr.gt at 2. by rewrite ltb_leb, Hx.
Qed.

Lemma last_nonempty {X} (y : X) (l : list X) (d d' : X) :
  List.last (y :: l) d = List.last (y :: l) d'.
Proof.
  revert y. induction l as [|z l IH]; intros y; [done|].
  change (List.last (z :: l) d = List.last (z :: l) d'). apply IH.
Qed.

Lemma last_cons_default {X} (x : X) (l : list X) (d : X) :
  List.last (x :: l) d = List.last l x.
Proof.
  destruct l as [|y l]; [done|].
  change (List.last (y :: l) d = List.last (y :: l) x). apply last_nonempty.
Qed.

Lemma min_of_descending (d : string) (rest : list string) :
  StronglySorted (fun a b => String.leb b a = true) (d :: rest) ->
  fold_left (fun acc x => if PyStr.lt x acc then x else acc) rest d
  = List.last rest d.
Proof.
  revert d. induction rest as [|x rest IH]; intros d Hs; [done|].
  apply StronglySorted_cons in Hs as [Hd Hs].
  cbn [fold_left]. unfold PyStr.lt at 2. rewrite ltb_leb.
  assert (Hstep : (if negb (String.leb d x) then x else d) = x).
  { destruct (String.leb d x) eqn:E; [|done]. simpl.
    apply Forall_cons in Hd as [Hxd _]. by apply String.leb_antisym. }
  by rewrite Hstep, (IH _ Hs), last_cons_default.
Qed.

Lemma listing_sorted client lay cat :
  StronglySorted (key_ge date)
    (Listing.listar_arquivos_disponiveis client lay cat).
Proof. apply list_sort_reverse_sorted. Qed.

(** X15. The period of the report is read off the ends of the listing:
    [fim] is the date of its first entry and [inicio] the date of its last
    (both [None] for an empty listing), and the date of every entry lies
    between the two. *)
Theorem report_period (client : Minio) :
  let arquivos := Listing.listar_arquivos_disponiveis client None None in
  let relatorio := Report.gerar_relatorio_dados client in
  periodo_fim relatorio = date <$> head arquivos
  /\ periodo_inicio relatorio = date <$> last arquivos
  /\ Forall (fun a =>
       exists inicio fim,
         periodo_inicio relatorio = Some inicio
         /\ periodo_fim relatorio = Some fim
         /\ String.leb inicio (date a) = true
         /\ String.leb (date a) fim = true) arquivos.
Proof.
  cbv zeta. unfold Report.gerar_relatorio_dados.
  cbn [periodo_fim periodo_inicio].
  pose proof (listing_sorted client None None) as Hs.
  destruct (Listing.listar_arquivos_disponiveis client None None)
    as [|a arquivos]; [repeat split; constructor|].
  assert (Hd : StronglySorted (fun x y => String.leb y x = true)
                 (map date (a :: arquivos))) by (by apply map_sorted).
  cbn [map] in Hd. cbn [map Report.py_min Report.py_max head fmap option_fmap
    option_map].
  pose proof Hd as Hd'. apply StronglySorted_cons in Hd' as [Hmax _].
  rewrite (max_of_descending _ _ Hmax), (min_of_descending _ _ Hd).
  assert (Hlast : date <$> last (a :: arquivos)
                  = Some (List.last (map date arquivos) (date a))).
  { clear. revert a. induction arquivos as [|b arquivos IH]; intros a; [done|].
    rewrite last_cons_cons. rewrite IH. cbn [map].
    by rewrite last_cons_default. }
  rewrite Hlast. repeat split.
  apply Forall_forall. intros b Hb.
  exists (List.last (map date arquivos) (date a)), (date a).
  repeat split.
  - (* the last date is below every date *)
    clear Hmax Hlast. revert a Hs Hd b Hb.
    induction arquivos as [|c arquivos IH]; intros a Hs Hd b Hb.
    + apply list_elem_of_singleton in Hb as ->. apply leb_refl.
    + cbn [map]. rewrite last_cons_default.
      apply StronglySorted_cons in Hs as [Ha Hs].
      cbn [map] in Hd. apply StronglySorted_cons in Hd as [_ Hd].
      apply elem_of_cons in Hb as [->|Hb]; [|by apply (IH c)].
      eapply leb_trans; [apply (IH c Hs Hd c); by left|].
      by apply Forall_cons in Ha as [? _].
  - apply elem_of_cons in Hb as [->|Hb]; [apply leb_refl|].
    apply StronglySorted_cons in Hs as [Ha _]. rewrite Forall_forall in Ha.
    by apply Ha.
Qed.

(** X16. [arquivos_recentes] describes the first ten entries of the listing
    (all of them when there are fewer), and no entry left out of it has a
    later date than one that is in it. *)
Theorem report_recent (client : Minio) :
  let arquivos := Listing.listar_arquivos_disponiveis client None None in
  let relatorio := Report.gerar_relatorio_dados client in
  arquivos_recentes relatorio = map Report.resumo (firstn 10 arquivos)
  /\ length (arquivos_recentes relatorio) = Nat.min 10 (length arquivos)
  /\ Forall (fun r =>
       Forall (fun b => String.leb (date b) (rec_data r) = true)
              (skipn 10 arquivos))
       (arquivos_recentes relatorio).
Proof.
  cbv zeta. unfold Report.gerar_relatorio_dados. cbn [arquivos_recentes].
  pose proof (listing_sorted client None None) as Hs.
  set (arquivos := Listing.listar_arquivos_disponiveis client None None) in *.
  assert (E : match arquivos with
              | [] => []
              | _ => map Report.resumo (firstn 10 arquivos)
              end = map Report.resumo (firstn 10 arquivos))
    by (by destruct arquivos).
  rewrite E. repeat split.
  - by rewrite length_map, length_firstn.
  - rewrite <- (firstn_skipn 10 arquivos) in Hs.
    apply StronglySorted_app in Hs as (Hcross & _ & _).
    apply Forall_map, Forall_forall. intros a Ha.
    apply Forall_forall. intros b Hb. cbn [Report.resumo rec_data].
    by apply (Hcross a b).
Qed.

(* ================================================================== *)
(** * Further properties of the decoder *)

Lemma converter_auto_list_of_objects_witness :
  Decoder.converter_para_dataframe DecoderSamples.records_only
    DecoderMoreSamples.duas_linhas "auto"
  = Ok (mkFrame [LStr "id"; LStr "nome"]
          [[JInt 1; JStr "a"]; [JInt 2; JFloat NaN]])
  /\ length (rows (mkFrame [LStr "id"; LStr "nome"]
                     [[JInt 1; JStr "a"]; [JInt 2; JFloat NaN]])) = 2.
Proof.
  exact (converter_auto_list_of_objects DecoderSamples.records_only
           [("id", JInt 1); ("nome", JStr "a")] [JObj [("id", JInt 2)]]
           [[("id", JInt 1); ("nome", JStr "a")]; [("id", JInt 2)]]
           eq_refl eq_refl).
Defined.

Lemma converter_auto_single_key_witness :
  Decoder.converter_para_dataframe DecoderSamples.records_only
    (JObj [("empresas", DecoderMoreSamples.duas_linhas)]) "auto"
  = Ok (mkFrame [LStr "id"; LStr "nome"]
          [[JInt 1; JStr "a"]; [JInt 2; JFloat NaN]])
  /\ length (rows (mkFrame [LStr "id"; LStr "nome"]
                     [[JInt 1; JStr "a"]; [JInt 2; JFloat NaN]])) = 2.
Proof.
  refine (converter_auto_single_key DecoderSamples.records_only "empresas"
            [JObj [("id", JInt 1); ("nome", JStr "a")]; JObj [("id", JInt 2)]]
            [[("id", JInt 1); ("nome", JStr "a")]; [("id", JInt 2)]]
            _ _ eq_refl); discriminate.
Defined.

Lemma converter_auto_other_object_witness :
  Decoder.converter_para_dataframe DecoderSamples.records_only
    (JObj [("id", JInt 1); ("nome", JStr "a")]) "auto"
  = Ok (mkFrame [LStr "id"; LStr "nome"] [[JInt 1; JStr "a"]])
  /\ length (rows (mkFrame [LStr "id"; LStr "nome"] [[JInt 1; JStr "a"]])) = 1.
Proof.
  refine (converter_auto_other_object DecoderSamples.records_only
            [("id", JInt 1); ("nome", JStr "a")] eq_refl eq_refl _).
  discriminate.
Defined.

Section DecoderMore.
Context (pandas : Pandas).

(** X21. A document with a list of objects under [companies] (and no
    [mainSegments]), decoded as [rankings] or detected with [auto], becomes
    one row per company, with the fields of the companies as columns. *)
Theorem rankings_rows (fields : list (string * JSON)) (companies : list JSON)
    (records : list (list (string * JSON))) (tipo : string) :
  Py.dict_get "mainSegments" fields = None ->
  Py.dict_get "companies" fields = Some (JList companies) ->
  Frame.as_records companies = Some records ->
  tipo = "auto" \/ tipo = "rankings" ->
  Decoder.converter_para_dataframe pandas (JObj fields) tipo
  = Ok (Frame.from_records records)
  /\ length (rows (Frame.from_records records)) = length companies.
Proof.
  intros Hm Hc Hrec Htipo. split.
  - unfold Decoder.converter_para_dataframe.
    assert (Hd : Decoder.detectar (JObj fields) tipo = Ok "rankings").
    { destruct Htipo as [-> | ->]; [|done].
      unfold Decoder.detectar. cbn [String.eqb Ascii.eqb Bool.eqb Py.contains
        rbind]. rewrite Hm, Hc.
      rewrite bool_decide_eq_false_2 by (by intros [? ?]).
      by rewrite bool_decide_eq_true_2 by eauto. }
    rewrite Hd. cbn [rbind]. unfold Decoder.decode.
    cbn [String.eqb Ascii.eqb Bool.eqb].
    unfold Decoder.decode_rankings. cbn [Py.get]. rewrite Hc.
    cbn [from_option id rbind]. unfold PandasOps.DataFrame_of.
    by rewrite Hrec.
  - rewrite from_records_length. by apply as_records_length.
Qed.

Lemma visit_item_ok item acc :
  OffersSpec.item_ok item = true ->
  Decoder.visit_item acc item
  = Ok (acc ++ match OffersSpec.offer_record item with
               | Some r => [JObj r]
               | None => []
               end).
Proof.
  unfold OffersSpec.item_ok, OffersSpec.offer_record, Decoder.visit_item.
  destruct item as [| | | | |?|fields]; try done. cbn [Py.contains rbind].
  destruct (Py.dict_get "company_info" fields) as [info|] eqn:E.
  - rewrite bool_decide_eq_true_2 by eauto. cbn [Py.getitem]. rewrite E.
    cbn [rbind]. destruct info; done.
  - rewrite bool_decide_eq_false_2 by (by intros [? ?]).
    intros _. by rewrite app_nil_r.
Qed.

Lemma visit_items_ok items acc :
  forallb OffersSpec.item_ok items = true ->
  Py.for_each Decoder.visit_item items acc
  = Ok (acc ++ map JObj (omap OffersSpec.offer_record items)).
Proof.
  revert acc. induction items as [|item items IH]; intros acc Hall; simpl.
  - by rewrite app_nil_r.
  - apply andb_true_iff in Hall as [Hi Hall].
    rewrite (visit_item_ok _ _ Hi), (IH _ Hall), <- app_assoc.
    by destruct (OffersSpec.offer_record item).
Qed.

Lemma length_omap {X Y} (f : X -> option Y) (l : list X) :
  length (omap f l)
  = length (List.filter (fun x => bool_decide (is_Some (f x))) l).
Proof.
  induction l as [|x l IH]; [done|]. cbn [omap list_omap List.filter].
  destruct (f x) as [y|].
  - rewrite bool_decide_eq_true_2 by eauto. simpl. by rewrite <- IH.
  - rewrite bool_decide_eq_false_2 by (by intros [? ?]). exact IH.
Qed.

Lemma offer_record_some item :
  OffersSpec.item_ok item = true ->
  bool_decide (is_Some (OffersSpec.offer_record item))
  = bool_decide (is_Some (TaxonomySpec.field "company_info" item)).
Proof.
  unfold OffersSpec.item_ok, OffersSpec.offer_record, TaxonomySpec.field.
  destruct item as [| | | | |?|fields]; try done.
  destruct (Py.dict_get "company_info" fields) as [[]|]; done.
Qed.

Lemma dict_get_set k k' v fields :
  Py.dict_get k (Py.dict_set k' v fields)
  = if String.eqb k' k then Some v else Py.dict_get k fields.
Proof.
  induction fields as [|[k0 v0] fields IH]; simpl.
  - by destruct (String.eqb k' k).
  - destruct (String.eqb_spec k0 k') as [->|Hne]; simpl.
    + by destruct (String.eqb k' k).
    + rewrite IH. destruct (String.eqb_spec k0 k) as [->|_]; [|done].
      by destruct (String.eqb_spec k' k) as [->|_].
Qed.

(** X22. A list of offer items decoded as [ofertas] gives one row for each
    item that has [company_info] and none for the others; the row is the
    [company_info] with the counters [total_discounts], [total_coupons] and
    [total_offers] of the item, 0 for a counter the item lacks, and every
    other field of the [company_info] as it is. *)
Theorem offers_rows (items : list JSON) :
  forallb OffersSpec.item_ok items = true ->
  Decoder.converter_para_dataframe pandas (JList items) "ofertas"
  = Ok (Frame.from_records (omap OffersSpec.offer_record items))
  /\ length (rows (Frame.from_records (omap OffersSpec.offer_record items)))
     = length (List.filter
                 (fun item => bool_decide
                    (is_Some (TaxonomySpec.field "company_info" item)))
                 items)
  /\ (forall item r, In item items ->
        OffersSpec.offer_record item = Some r ->
        exists info,
          TaxonomySpec.field "company_info" item = Some (JObj info)
          /\ forall k,
               Py.dict_get k r
               = if bool_decide (k ∈ OffersSpec.counters)
                 then Some (from_option id (JInt 0)
                              (TaxonomySpec.field k item))
                 else Py.dict_get k info).
Proof.
  intros Hall. repeat split.
  - unfold Decoder.converter_para_dataframe. cbn [Decoder.detectar
      String.eqb Ascii.eqb Bool.eqb rbind].
    unfold Decoder.decode. cbn [String.eqb Ascii.eqb Bool.eqb].
    unfold Decoder.decode_ofertas. cbn [Py.iter rbind].
    rewrite (visit_items_ok _ _ Hall). cbn [rbind app].
    unfold PandasOps.DataFrame_of.
    by rewrite (as_records_objects (fun r => r)), map_id.
  - rewrite from_records_length, length_omap. f_equal.
    apply filter_ext_in. intros item Hin.
    apply forallb_forall with (x := item) in Hall; [|done].
    by apply offer_record_some.
  - intros item r _ Hr. unfold OffersSpec.offer_record in Hr.
    destruct item as [| | | | |?|fields]; try done.
    cbn [TaxonomySpec.field].
    destruct (Py.dict_get "company_info" fields) as [[| | | | |?|info]|];
      try done.
    injection Hr as <-. exists info. split; [done|]. intros k.
    unfold Py.dict_update, OffersSpec.counters. cbn [map fold_left fst snd].
    rewrite !dict_get_set.
    destruct (String.eqb_spec "total_offers" k) as [<-|H1]; [done|].
    destruct (String.eqb_spec "total_coupons" k) as [<-|H2]; [done|].
    destruct (String.eqb_spec "total_discounts" k) as [<-|H3]; [done|].
    rewrite bool_decide_eq_false_2; [done|].
    rewrite !elem_of_cons. intros [?|[?|[?|?%elem_of_nil]]]; congruence.
Qed.

End DecoderMore.

Lemma rankings_rows_witness :
  Decoder.converter_para_dataframe DecoderSamples.records_only
    DecoderMoreSamples.ranking "auto"
  = Ok (mkFrame [LStr "id"; LStr "finalScore"]
          [[JStr "1"; JInt 9]; [JStr "2"; JInt 7]])
  /\ length (rows (mkFrame [LStr "id"; LStr "finalScore"]
                     [[JStr "1"; JInt 9]; [JStr "2"; JInt 7]])) = 2.
Proof.
  exact (rankings_rows DecoderSamples.records_only
           [("companies",
             JList [JObj [("id", JStr "1"); ("finalScore", JInt 9)];
                    JObj [("id", JStr "2"); ("finalScore", JInt 7)]]);
            ("total", JInt 2)]
           [JObj [("id", JStr "1"); ("finalScore", JInt 9)];
            JObj [("id", JStr "2"); ("finalScore", JInt 7)]]
           [[("id", JStr "1"); ("finalScore", JInt 9)];
            [("id", JStr "2"); ("finalScore", JInt 7)]]
           "auto" eq_refl eq_refl eq_refl (or_introl eq_refl)).
Defined.

Lemma offers_rows_witness :
  Decoder.converter_para_dataframe DecoderSamples.records_only
    DecoderMoreSamples.ofertas "ofertas"
  = Ok (mkFrame [LStr "id"; LStr "name"; LStr "total_discounts";
                 LStr "total_coupons"; LStr "total_offers"]
          [[JStr "1"; JStr "X"; JInt 5; JInt 0; JInt 0]]).
Proof.
  exact (proj1 (offers_rows DecoderSamples.records_only
                  [JObj [("company_info",
                          JObj [("id", JStr "1"); ("name", JStr "X")]);
                         ("total_discounts", JInt 5)];
                   JObj [("outro", JInt 0)]] eq_refl)).
Defined.

(* ================================================================== *)
(** * Further properties of the loaders and the aggregation *)

Lemma buscar_nothing_listed client filtros :
  Listing.listar_arquivos_disponiveis client None None = [] ->
  Listing.buscar_arquivos_por_filtro client filtros = [].
Proof. intros H. by rewrite buscar_spec, H. Qed.

(** X23. With nothing listed in the store, every loader and aggregation
    answers with its empty value ([None], an empty list, an empty frame),
    makes no download and leaves the reader as it was. *)
Theorem nothing_listed_nothing_loaded (pandas : Pandas)
    (json_loads : string -> result JSON) (client : Minio) (st : Reader)
    (a b lay : string) (limit : nat) :
  Listing.listar_arquivos_disponiveis client None None = [] ->
  run (Loader.carregar_ultima_coleta json_loads client a lay) st
  = (Ok JNull, st)
  /\ run (LoaderMore.carregar_dados_empresa json_loads client a lay) st
     = (Ok JNull, st)
  /\ run (Loader.carregar_rankings_categoria json_loads client a b lay) st
     = (Ok [], st)
  /\ run (LoaderMore.carregar_reclamacoes_empresa json_loads client a lay) st
     = (Ok [], st)
  /\ run (DataAnalyzer.obter_top_empresas_categoria pandas json_loads client
            a b limit) st
     = (Ok Frame.empty_frame, st)
  /\ run (DataAnalyzer.listar_categorias_com_dados pandas json_loads client)
         st
     = (Ok Frame.empty_frame, st).
Proof.
  intros H. repeat split.
  - unfold Loader.carregar_ultima_coleta.
    by rewrite (buscar_nothing_listed _ _ H).
  - unfold LoaderMore.carregar_dados_empresa.
    by rewrite (buscar_nothing_listed _ _ H).
  - unfold Loader.carregar_rankings_categoria.
    by rewrite (buscar_nothing_listed _ _ H).
  - unfold LoaderMore.carregar_reclamacoes_empresa.
    by rewrite (buscar_nothing_listed _ _ H).
  - apply obter_top_no_rankings. by apply buscar_nothing_listed.
  - apply listar_categorias_com_dados_no_taxonomy.
    by apply buscar_nothing_listed.
Qed.

Lemma nothing_listed_nothing_loaded_witness :
  run (Loader.carregar_ultima_coleta CacheSamples.json_loads
         Samples.empty_client "categorias" "landing") new_reader
  = (Ok JNull, new_reader)
  /\ run (LoaderMore.carregar_dados_empresa CacheSamples.json_loads
            Samples.empty_client "categorias" "landing") new_reader
     = (Ok JNull, new_reader)
  /\ run (Loader.carregar_rankings_categoria CacheSamples.json_loads
            Samples.empty_client "categorias" "b" "landing") new_reader
     = (Ok [], new_reader)
  /\ run (LoaderMore.carregar_reclamacoes_empresa CacheSamples.json_loads
            Samples.empty_client "categorias" "landing") new_reader
     = (Ok [], new_reader)
  /\ run (DataAnalyzer.obter_top_empresas_categoria
            DecoderSamples.records_only CacheSamples.json_loads
            Samples.empty_client "categorias" "b" 10) new_reader
     = (Ok Frame.empty_frame, new_reader)
  /\ run (DataAnalyzer.listar_categorias_com_dados
            DecoderSamples.records_only CacheSamples.json_loads
            Samples.empty_client) new_reader
     = (Ok Frame.empty_frame, new_reader).
Proof.
  exact (nothing_listed_nothing_loaded DecoderSamples.records_only
           CacheSamples.json_loads Samples.empty_client new_reader
           "categorias" "b" "landing" 10 eq_refl).
Defined.

(** *** Ranking file names *)

Lemma replace_from_skip old new (t s : string) :
  PyStr.replace_from old new (String.length t) (t +:+ s)
  = PyStr.replace_from old new 0 s.
Proof.
  induction t as [|c t IH]; [done|].
  rewrite append_cons. cbn [String.length PyStr.replace_from]. exact IH.
Qed.

Lemma startswith_append p s : PyStr.startswith p (p +:+ s) = true.
Proof. apply startswith_iff. by exists s. Qed.

Lemma replace_prefix c old new s :
  PyStr.replace (String c old) new (String c old +:+ s)
  = new +:+ PyStr.replace (String c old) new s.
Proof.
  unfold PyStr.replace. rewrite append_cons.
  cbn [PyStr.replace_from]. rewrite <- append_cons, startswith_append.
  replace (String.length (String c old) - 1) with (String.length old)
    by (cbn [String.length]; lia).
  by rewrite replace_from_skip.
Qed.

Lemma replace_absent old new s :
  PyStr.contains old s = false -> PyStr.replace old new s = s.
Proof.
  unfold PyStr.replace. induction s as [|c s IH]; [done|].
  cbn [PyStr.contains PyStr.replace_from].
  intros [Hs Hc]%orb_false_iff. rewrite Hs. by rewrite (IH Hc).
Qed.

Lemma replace_json_suffix body :
  PyStr.has_char "."%char body = false ->
  PyStr.replace ".json" "" (body +:+ ".json") = body.
Proof.
  unfold PyStr.replace. induction body as [|c body IH]; [done|].
  cbn [PyStr.has_char]. intros [Hc Hb]%orb_false_iff.
  rewrite append_cons. cbn [PyStr.replace_from PyStr.startswith].
  rewrite Ascii.eqb_sym, Hc. cbn [andb]. by rewrite (IH Hb).
Qed.

Lemma underscore_append x : "_" +:+ x = String "_"%char x.
Proof. reflexivity. Qed.

(** X24. The pair that [listar_categorias_com_dados] reads from a ranking
    file name is the pair the collector put into it, when the names of the
    two segments hold no ['_'], the three parts hold no ['.'], and
    [ranking_] occurs nowhere else in the name. *)
Theorem ranking_filename_round_trip (main_seg sec_seg pagina : string) :
  PyStr.has_char "_"%char main_seg = false ->
  PyStr.has_char "_"%char sec_seg = false ->
  PyStr.has_char "."%char (main_seg +:+ sec_seg +:+ pagina) = false ->
  PyStr.contains "ranking_"
    (main_seg +:+ "_" +:+ sec_seg +:+ "_" +:+ pagina +:+ ".json") = false ->
  DataAnalyzer.segmentos_do_arquivo
    (Pipeline.ranking_filename main_seg sec_seg pagina)
  = Some (main_seg, sec_seg).
Proof.
  intros Hm Hs Hdot Habs.
  unfold DataAnalyzer.segmentos_do_arquivo, Pipeline.ranking_filename.
  assert (Hin : PyStr.contains "ranking_"
                  ("ranking_" +:+ main_seg +:+ "_" +:+ sec_seg +:+ "_" +:+
                   pagina +:+ ".json") = true).
  { apply contains_iff. by exists "", (main_seg +:+ "_" +:+ sec_seg +:+ "_"
                                       +:+ pagina +:+ ".json"). }
  rewrite Hin. rewrite replace_prefix, (replace_absent _ _ _ Habs).
  change ("" +:+ ?x) with x.
  rewrite !has_char_append in Hdot.
  apply orb_false_iff in Hdot as [Hd1 Hd2].
  apply orb_false_iff in Hd2 as [Hd2 Hd3].
  replace (main_seg +:+ "_" +:+ sec_seg +:+ "_" +:+ pagina +:+ ".json")
    with ((main_seg +:+ "_" +:+ sec_seg +:+ "_" +:+ pagina) +:+ ".json")
    by (by rewrite !append_assoc).
  rewrite replace_json_suffix
    by (rewrite !has_char_append, Hd1, Hd2, Hd3; reflexivity).
  rewrite !underscore_append.
  by rewrite (split_first_piece _ _ _ Hm), (split_first_piece _ _ _ Hs).
Qed.

Lemma ranking_filename_round_trip_witness :
  DataAnalyzer.segmentos_do_arquivo
    (Pipeline.ranking_filename "bancos" "cartoes" "1")
  = Some ("bancos", "cartoes").
Proof.
  exact (ranking_filename_round_trip "bancos" "cartoes" "1"
           eq_refl eq_refl eq_refl eq_refl).
Defined.

(* ================================================================== *)
(** * The uploader and the latest file *)

Lemma split_head_no_sep sep s :
  PyStr.has_char sep (List.nth 0 (PyStr.split sep s) "") = false.
Proof.
  induction s as [|c s IH]; [done|]. cbn [PyStr.split].
  destruct (Ascii.eqb c sep) eqn:E; [done|].
  destruct (PyStr.split sep s) as [|p ps]; cbn in *.
  - by rewrite E.
  - by rewrite E, IH.
Qed.

Lemma default_name_no_slash cat stamp :
  PyStr.has_char PyStr.slash cat = false ->
  PyStr.has_char PyStr.slash (Codec.upload_filename cat stamp None) = false.
Proof.
  intros H. unfold Codec.upload_filename, Codec.strftime_stamp.
  rewrite !has_char_append, H, !four_digits_no_slash, !two_digits_no_slash.
  reflexivity.
Qed.

Lemma decode_default_name lay cat stamp now :
  PyStr.has_char PyStr.slash cat = false ->
  Codec.decode lay (Codec.object_path cat stamp now None)
  = Some (UploaderSpec.default_entry lay cat stamp now).
Proof.
  intros H. unfold Codec.decode.
  change (Codec.object_path cat stamp now None)
    with (Codec.object_path cat stamp now
            (Some (Codec.upload_filename cat stamp None))).
  rewrite (split_object_path _ _ _ _ H),
    (split_no_sep _ _ (default_name_no_slash _ stamp H)).
  reflexivity.
Qed.

Section UploaderFacts.
Context (put_object : string -> string -> string -> result unit).
Context (json_dumps : JSON -> string).
Context (json_loads : string -> result JSON) (client : Minio).

(** X25. An upload without a file name, under a category that holds no
    ['/'], to a layer that has a bucket and a store that takes the object,
    returns the bucket and the key, and the listing loop reads the key back
    as that layer, that category, the day of the upload and the name
    [<category>_<YYYYMMDD_HHMMSS>.json]. *)
Theorem upload_default_name_round_trip (data : JSON)
    (lay cat bucket_name : string) (stamp now : datetime) :
  PyStr.has_char PyStr.slash cat = false ->
  MinIOClient.buckets lay = Ok bucket_name ->
  put_object bucket_name (Codec.object_path cat stamp now None)
    (json_dumps data) = Ok tt ->
  Uploader.upload_json put_object json_dumps data lay cat None stamp now
  = Ok (Some (bucket_name +:+ "/" +:+ Codec.object_path cat stamp now None))
  /\ Codec.decode lay (Codec.object_path cat stamp now None)
     = Some (UploaderSpec.default_entry lay cat stamp now).
Proof.
  intros Hcat Hb Hput. split; [|by apply decode_default_name].
  unfold Uploader.upload_json. rewrite Hb. cbn [rbind]. by rewrite Hput.
Qed.

(** X26. [backup_to_raw] copies nothing when the landing object is missing
    or holds a document that is false as a condition: whatever the store
    would answer to a write, the result is [None] after one download. *)
Theorem backup_to_raw_nothing_to_copy (landing_object_path : string)
    (raw_category : option string) (processed_at : string)
    (stamp now : datetime) (st : Reader) :
  (client_get_object client "reclameaqui-landing" landing_object_path
   = Raise S3Error
   \/ exists body doc,
        client_get_object client "reclameaqui-landing" landing_object_path
        = Ok body
        /\ json_loads body = Ok doc /\ truthy doc = false) ->
  run (Uploader.backup_to_raw put_object json_dumps json_loads client
         landing_object_path raw_category processed_at stamp now) st
  = (Ok None,
     mkReader (data_cache st) (file_cache st)
       (downloads st ++ [("reclameaqui-landing", landing_object_path)])).
Proof.
  intros [Hg|(body & doc & Hg & Hj & Ht)]; unfold Uploader.backup_to_raw.
  - rewrite run_bind. unfold DataReader.download_json, except_S3Error.
    cbn. rewrite Hg. reflexivity.
  - rewrite run_bind.
    rewrite (download_json_stored json_loads client st "landing"
               landing_object_path "reclameaqui-landing" body doc eq_refl Hg Hj).
    by rewrite Ht.
Qed.

(** X27. [backup_to_raw] without a category: a landing object that holds a
    document true as a condition is written to the raw bucket under the
    first piece of its key, which is the category of the landing entry, and
    the listing reads the raw key back as that category and the day of the
    copy. *)
Theorem backup_to_raw_keeps_category (landing_object_path : string)
    (processed_at body : string) (doc : JSON) (stamp now : datetime)
    (st : Reader) :
  client_get_object client "reclameaqui-landing" landing_object_path
  = Ok body ->
  json_loads body = Ok doc ->
  truthy doc = true ->
  put_object "reclameaqui-raw"
    (Codec.object_path (Uploader.categoria_raw landing_object_path None)
       stamp now None)
    (json_dumps (Uploader.processed_data processed_at landing_object_path doc))
  = Ok tt ->
  fst (run (Uploader.backup_to_raw put_object json_dumps json_loads client
              landing_object_path None processed_at stamp now) st)
  = Ok (Some ("reclameaqui-raw/" +:+
              Codec.object_path
                (Uploader.categoria_raw landing_object_path None)
                stamp now None))
  /\ Codec.decode "raw"
       (Codec.object_path (Uploader.categoria_raw landing_object_path None)
          stamp now None)
     = Some (UploaderSpec.default_entry "raw"
               (Uploader.categoria_raw landing_object_path None) stamp now)
  /\ (forall a, Codec.decode "landing" landing_object_path = Some a ->
        category a = Uploader.categoria_raw landing_object_path None).
Proof.
  intros Hg Hj Ht Hput. split; [|split].
  - unfold Uploader.backup_to_raw. rewrite run_bind.
    rewrite (download_json_stored json_loads client st "landing"
               landing_object_path "reclameaqui-landing" body doc eq_refl Hg Hj).
    rewrite Ht. cbn [negb]. unfold Uploader.upload_json.
    change (MinIOClient.buckets "raw") with (@Ok string "reclameaqui-raw").
    cbn [rbind]. rewrite Hput. reflexivity.
  - apply decode_default_name. apply split_head_no_sep.
  - unfold Codec.decode, Uploader.categoria_raw.
    destruct (Nat.leb _ _); [|done]. by intros a [= <-].
Qed.

End UploaderFacts.

Lemma upload_default_name_round_trip_witness :
  Uploader.upload_json UploaderSamples.put_ok UploaderSamples.json_dumps
    (JObj []) "landing" "categorias" None UploaderSamples.noon
    UploaderSamples.noon
  = Ok (Some "reclameaqui-landing/categorias/2024/03/05/categorias_20240305_120000.json")
  /\ Codec.decode "landing"
       "categorias/2024/03/05/categorias_20240305_120000.json"
     = Some (mkDataFile
               "categorias/2024/03/05/categorias_20240305_120000.json"
               "landing" "categorias" "categorias_20240305_120000.json"
               "2024/03/05").
Proof.
  exact (upload_default_name_round_trip UploaderSamples.put_ok
           UploaderSamples.json_dumps (JObj []) "landing" "categorias"
           "reclameaqui-landing" UploaderSamples.noon UploaderSamples.noon
           eq_refl eq_refl eq_refl).
Defined.

Lemma backup_to_raw_nothing_to_copy_witness :
  run (Uploader.backup_to_raw UploaderSamples.put_ok
         UploaderSamples.json_dumps CacheSamples.json_loads
         CacheSamples.client "categorias/2024/01/02/vazio.json" None
         "2024-03-05T12:00:00" UploaderSamples.noon UploaderSamples.noon)
    new_reader
  = (Ok None,
     mkReader ∅ ∅
       [("reclameaqui-landing", "categorias/2024/01/02/vazio.json")]).
Proof.
  apply (backup_to_raw_nothing_to_copy UploaderSamples.put_ok
           UploaderSamples.json_dumps CacheSamples.json_loads
           CacheSamples.client "categorias/2024/01/02/vazio.json" None
           "2024-03-05T12:00:00" UploaderSamples.noon UploaderSamples.noon
           new_reader).
  right. exists "{}", (JObj []). repeat split; reflexivity.
Defined.

Lemma backup_to_raw_keeps_category_witness :
  fst (run (Uploader.backup_to_raw UploaderSamples.put_ok
              UploaderSamples.json_dumps CacheSamples.json_loads
              CacheSamples.client "categorias/2024/01/02/um.json" None
              "2024-03-05T12:00:00" UploaderSamples.noon UploaderSamples.noon)
         new_reader)
  = Ok (Some "reclameaqui-raw/categorias/2024/03/05/categorias_20240305_120000.json").
Proof.
  exact (proj1 (backup_to_raw_keeps_category UploaderSamples.put_ok
                  UploaderSamples.json_dumps CacheSamples.json_loads
                  CacheSamples.client "categorias/2024/01/02/um.json"
                  "2024-03-05T12:00:00" "[1]" (JList [JInt 1])
                  UploaderSamples.noon UploaderSamples.noon new_reader
                  eq_refl eq_refl eq_refl eq_refl)).
Defined.

(** *** The latest file *)

Lemma ascii_compare_refl c : Ascii.compare c c = Eq.
Proof.
  pose proof (Ascii.compare_antisym c c) as H.
  by destruct (Ascii.compare c c).
Qed.

Lemma compare_append_prefix p a b :
  String.compare (p +:+ a) (p +:+ b) = String.compare a b.
Proof.
  induction p as [|c p IH]; [done|]. rewrite !append_cons.
  cbn [String.compare]. by rewrite ascii_compare_refl.
Qed.

Lemma compare_append_lt a b x y :
  String.length a = String.length b -> String.compare a b = Lt ->
  String.compare (a +:+ x) (b +:+ y) = Lt.
Proof.
  revert b. induction a as [|c a IH]; intros [|d b]; try done.
  cbn [String.length]. intros [= Hl]. rewrite !append_cons.
  cbn [String.compare]. destruct (Ascii.compare c d); [by apply IH|done|done].
Qed.

Lemma date_compare_antisym a b :
  date_compare a b = CompOpp (date_compare b a).
Proof.
  unfold date_compare.
  rewrite (Nat.compare_antisym (year b) (year a)),
    (Nat.compare_antisym (month b) (month a)),
    (Nat.compare_antisym (day b) (day a)).
  destruct (Nat.compare (year b) (year a)); [|done|done].
  cbn [CompOpp]. by destruct (Nat.compare (month b) (month a)).
Qed.

(** Of two keys of one category, the one of the earlier day is below the
    other, whatever the file names are. *)
Lemma uploaded_key_date_order cat u v :
  valid_date (up_now u) -> valid_date (up_now v) ->
  date_compare (up_now u) (up_now v) = Lt ->
  String.ltb (UploaderSpec.uploaded_key cat u)
             (UploaderSpec.uploaded_key cat v) = true.
Proof.
  intros Hu Hv H. unfold String.ltb, UploaderSpec.uploaded_key, Codec.object_path.
  rewrite compare_append_prefix, (compare_append_prefix "/").
  rewrite compare_append_lt; [done|by rewrite !strftime_Ymd_length|].
  by rewrite strftime_Ymd_compare.
Qed.

Lemma last_some_nonempty {X} (l : list X) (d : X) :
  exists k, List.last (map Some l) (Some d) = Some k.
Proof.
  revert d. induction l as [|x l IH]; intros d; [by exists d|].
  cbn [map]. rewrite last_cons_default. apply IH.
Qed.

Lemma last_sorted_max (l : list string) (k : string) :
  StronglySorted (fun a b => String.leb a b = true) l ->
  List.last (map Some l) None = Some k ->
  In k l /\ Forall (fun x => String.leb x k = true) l.
Proof.
  induction 1 as [|x l Hl IH Hx]; [done|].
  cbn [map]. rewrite last_cons_default. destruct l as [|y l].
  - intros [= <-]. split; [by left|]. constructor; [apply leb_refl|done].
  - cbn [map]. rewrite (last_nonempty _ _ (Some x) None). intros Hk.
    destruct (IH Hk) as [Hin Hall]. split; [by right|].
    constructor; [|done]. rewrite List.Forall_forall in Hx. by apply Hx.
Qed.

Lemma latest_file_max (objects : list string) (k : string) :
  Pipeline.latest_file objects = Some k ->
  In k objects /\ Forall (fun x => String.leb x k = true) objects.
Proof.
  unfold Pipeline.latest_file. intros Hk.
  destruct (last_sorted_max _ _ (sort_asc_sorted (fun key => key) objects) Hk)
    as [Hin Hall].
  pose proof (sort_asc_perm (fun key => key) objects) as Hp. split.
  - by apply (Permutation_in _ Hp).
  - by apply (Permutation_Forall Hp).
Qed.

Lemma latest_file_some (objects : list string) :
  objects <> [] -> exists k, Pipeline.latest_file objects = Some k.
Proof.
  intros Hne. unfold Pipeline.latest_file.
  pose proof (sort_asc_perm (fun key => key) objects) as Hp.
  destruct (PySort.sort_asc (fun key => key) objects) as [|x l].
  - apply Permutation_nil in Hp. congruence.
  - cbn [map]. rewrite last_cons_default. apply last_some_nonempty.
Qed.

(** X28. [sorted(objects)[-1]], as [executar_pipeline_basica] and
    [top_empresas] take the latest file: when the keys were all written by
    [upload_json] under one category, the key taken is of an upload that no
    other upload is of a later day than. *)
Theorem latest_file_is_latest_day (cat : string) (uploads : list Upload) :
  uploads <> [] ->
  Forall (fun u => valid_date (up_now u)) uploads ->
  exists u,
    In u uploads
    /\ Pipeline.latest_file (map (UploaderSpec.uploaded_key cat) uploads)
       = Some (UploaderSpec.uploaded_key cat u)
    /\ Forall (fun v => date_compare (up_now v) (up_now u) <> Gt) uploads.
Proof.
  intros Hne Hvalid.
  destruct (latest_file_some (map (UploaderSpec.uploaded_key cat) uploads))
    as [k Hk]; [by destruct uploads|].
  destruct (latest_file_max _ _ Hk) as [Hin Hall].
  apply in_map_iff in Hin as (u & <- & Hu). exists u.
  split; [done|]. split; [done|].
  rewrite List.Forall_forall in Hvalid. apply List.Forall_forall. intros v Hv Hgt.
  rewrite List.Forall_forall in Hall.
  specialize (Hall (UploaderSpec.uploaded_key cat v) (in_map _ _ _ Hv)).
  assert (Hlt : date_compare (up_now u) (up_now v) = Lt).
  { rewrite date_compare_antisym, Hgt. reflexivity. }
  pose proof (uploaded_key_date_order cat u v (Hvalid u Hu) (Hvalid v Hv) Hlt)
    as Hk'.
  rewrite ltb_leb, Hall in Hk'. discriminate Hk'.
Qed.

Lemma latest_file_is_latest_day_witness :
  exists u,
    In u [mkUpload UploaderSamples.noon UploaderSamples.noon None;
          mkUpload UploaderSamples.noon (mkDatetime 2023 12 31 9 0 0)
            (Some "z.json")]
    /\ Pipeline.latest_file
         (map (UploaderSpec.uploaded_key "categorias")
            [mkUpload UploaderSamples.noon UploaderSamples.noon None;
             mkUpload UploaderSamples.noon (mkDatetime 2023 12 31 9 0 0)
               (Some "z.json")])
       = Some (UploaderSpec.uploaded_key "categorias" u)
    /\ Forall (fun v => date_compare (up_now v) (up_now u) <> Gt)
         [mkUpload UploaderSamples.noon UploaderSamples.noon None;
          mkUpload UploaderSamples.noon (mkDatetime 2023 12 31 9 0 0)
            (Some "z.json")].
Proof.
  apply (latest_file_is_latest_day "categorias"
           [mkUpload UploaderSamples.noon UploaderSamples.noon None;
            mkUpload UploaderSamples.noon (mkDatetime 2023 12 31 9 0 0)
              (Some "z.json")]).
  - discriminate.
  - constructor; [|constructor; [|constructor]];
      unfold valid_date; cbn [up_now year month day UploaderSamples.noon]; lia.
Defined.

(** *** The filters of the company loaders *)

(** X29. The filters of [carregar_dados_empresa] and of
    [carregar_reclamacoes_empresa] search for a part of the name: asked for
    a short name, the first also returns the profile files of every company
    whose short name starts with it, and asked for an id, the second also
    returns the complaint files of every company whose id holds it. *)
Theorem company_filters_match_longer_names (client : Minio)
    (shortname extra before company_id after lay : string) (a : DataFile) :
  In a (Listing.listar_arquivos_disponiveis client None None) ->
  layer a = lay ->
  (category a = "empresas" ->
   filename a = Pipeline.empresa_filename (shortname +:+ extra) ->
   In a (Listing.buscar_arquivos_por_filtro client
           (LoaderMore.filtro_empresa shortname lay)))
  /\ (category a = "reclamacoes" ->
      filename a
      = Pipeline.reclamacoes_filename (before +:+ company_id +:+ after) ->
      In a (Listing.buscar_arquivos_por_filtro client
              (LoaderMore.filtro_reclamacoes company_id lay))).
Proof.
  intros Hin Hl. split; intros Hc Hf; rewrite buscar_spec; apply filter_In;
    (split; [done|]); apply passa_iff;
    unfold ListingSpec.satisfaz, LoaderMore.filtro_empresa,
      LoaderMore.filtro_reclamacoes;
    cbn [Listing.f_layer Listing.f_category Listing.f_data_inicio
         Listing.f_data_fim Listing.f_filename_contains];
    (repeat split; try (by intros ? [= <-]); try done);
    intros t [= <-]; rewrite Hf.
  - unfold Pipeline.empresa_filename. exists "", (extra +:+ ".json").
    change ("" +:+ ?x) with x. by rewrite !append_assoc.
  - unfold Pipeline.reclamacoes_filename.
    exists ("reclamacoes_" +:+ before), (after +:+ ".json").
    by rewrite !append_assoc.
Qed.

Lemma company_filters_match_longer_names_witness :
  In (mkDataFile "reclamacoes/2024/01/10/reclamacoes_77.json" "landing"
        "reclamacoes" "reclamacoes_77.json" "2024/01/10")
     (Listing.buscar_arquivos_por_filtro LoaderSamples.client
        (LoaderMore.filtro_reclamacoes "7" "landing")).
Proof.
  apply (company_filters_match_longer_names LoaderSamples.client
           "" "" "7" "7" "" "landing").
  - vm_compute. tauto.
  - reflexivity.
  - reflexivity.
  - reflexivity.
Defined.
